(** * dathost: the awaiting server handle

    A shallow embedding of [dathost/server/awaiting/__init__.py], the
    class [ServerAwaiting], and the properties its specification states
    about it.

    Python values are an inductive type, dictionaries are finite maps,
    and a method is a computation in a state-and-exception monad whose
    state holds the receiver [self] and the log of dispatcher calls. *)

From Stdlib Require Import ZArith Ascii String List Floats.
From stdpp Require Import gmap strings list fin_maps.

#[local] Set Warnings "-register-all".
#[local] Open Scope string_scope.
#[local] Open Scope list_scope.
#[local] Open Scope Z_scope.

(** ** Python values *)

(** The values a decoded JSON body can hold, which are also the values
    the handle stores and forwards. *)
Inductive value : Type :=
| VNone
| VBool (b : bool)
| VInt (z : Z)
| VFloat (f : float)
| VStr (s : string)
| VList (l : list value)
| VDict (d : gmap string value).

Abbreviation dict := (gmap string value).

(** ** Exceptions *)

(** [InvalidConsoleLine] is the library's own validation error;
    [KeyError] and [TypeError] are raised by Python's subscript and
    iteration; [RemoteError] and [TimeoutError] are the two failures the
    dispatcher raises. *)
Inductive exn : Type :=
| InvalidConsoleLine
| KeyError (key : string)
| TypeError
| RemoteError (status : Z)
| TimeoutError.

Inductive result (A : Type) : Type :=
| Ok (a : A)
| Raise (e : exn).
Arguments Ok {A} a.
Arguments Raise {A} e.

(** [v[key]] for a string key: defined on dictionaries only. *)
Definition getitem (v : value) (key : string) : result value :=
  match v with
  | VDict d =>
      match d !! key with
      | Some x => Ok x
      | None => Raise (KeyError key)
      end
  | _ => Raise TypeError
  end.

(** The characters of a string, each a string of length one. *)
Fixpoint chars (s : string) : list value :=
  match s with
  | EmptyString => []
  | String c s' => VStr (String c EmptyString) :: chars s'
  end.

(** [for x in v]: the elements a value is iterated over.  A dictionary
    iterates over its keys; their order is immaterial below, since a key
    is a string and every string fails the subscript that follows. *)
Definition iterate (v : value) : result (list value) :=
  match v with
  | VList l => Ok l
  | VDict d => Ok (VStr <$> (map_to_list d).*1)
  | VStr s => Ok (chars s)
  | _ => Raise TypeError
  end.

(** ** Collaborators that live outside this file *)

(** Modelled from the spec: the dispatcher ("context") shared by all the
    handles of one client; it holds the credentials and the base URL, and
    its HTTP session is the call log of the [World] below. *)
Record Context : Type := mkContext {
  credentials : string;
  base_url : string
}.

Inductive verb : Type := GET | POST | PUT | DELETE.

(** One invocation of a dispatcher verb.  An optional field is [None]
    when the call site does not pass that keyword. *)
Record request : Type := mkRequest {
  req_verb : verb;
  req_url : string;
  req_params : option dict;
  req_data : option dict;
  req_timeout : option Z;
  req_read_json : option bool
}.

Abbreviation call := (Context * request)%type.

(** Modelled from the spec: the model wrappers are views over the raw
    response; constructing one stores the mapping and reads nothing. *)
Inductive ServerModel : Type := mkServerModel (data : value).
Inductive FileModel : Type := mkFileModel (data : value).
Inductive BackupModel : Type := mkBackupModel (data : value).
Inductive MetricsModel : Type := mkMetricsModel (data : value).

(** Modelled from the spec: the settings object, of which the handle
    reads the wire-format mapping [playload] only. *)
Record ServerSettings : Type := mkServerSettings {
  playload : dict
}.

(** Modelled from the spec: the child handles, identified by the server
    id and a path or a backup name; construction performs no I/O. *)
Record AwaitingFile : Type := mkAwaitingFile {
  file_context : Context;
  file_server_id : value;
  file_path : value
}.

Record AwaitingBackup : Type := mkAwaitingBackup {
  backup_context : Context;
  backup_server_id : value;
  backup_name : value
}.

(** Modelled from the spec: the base class of the handle, which stores
    the dispatcher reference and the server id given at construction;
    [ServerAwaiting(context, id)] is [mkServerBase context id]. *)
Record ServerBase : Type := mkServerBase {
  context : Context;
  server_id : value
}.

(** The URL templates of [routes.SERVER], one per attribute the handle
    reads. *)
Record Routes : Type := mkRoutes {
  route_delete : string;
  route_get : string;
  route_update : string;
  route_console : string;
  route_sync : string;
  route_duplicate : string;
  route_ftp : string;
  route_stop : string;
  route_start : string;
  route_reset : string;
  route_files : string;
  route_backups : string;
  route_metrics : string
}.

(** ** The monad of a method body *)

(** The state a method runs in: the receiver and the dispatcher calls
    issued so far, oldest first. *)
Record World : Type := mkWorld {
  this : ServerBase;
  calls : list call
}.

(** The world after one more dispatcher call. *)
Definition logged (w : World) (c : call) : World :=
  {| this := this w; calls := calls w ++ [c] |}.

Definition M (A : Type) : Type := World -> result A * World.

Definition ret {A} (a : A) : M A := fun w => (Ok a, w).

Definition raise {A} (e : exn) : M A := fun w => (Raise e, w).

Definition bind {A B} (m : M A) (k : A -> M B) : M B :=
  fun w =>
    match m w with
    | (Ok a, w') => k a w'
    | (Raise e, w') => (Raise e, w')
    end.

Definition lift {A} (r : result A) : M A := fun w => (r, w).

Definition self : M ServerBase := fun w => (Ok (this w), w).

Declare Scope py_scope.
Delimit Scope py_scope with py.
Notation "x <- m ;; k" := (bind m (fun x => k))
  (at level 100, m at next level, right associativity) : py_scope.
Notation "m ;;; k" := (bind m (fun _ => k))
  (at level 100, right associativity) : py_scope.
#[local] Open Scope py_scope.

(** ** Asynchronous generators *)

(** What one [__anext__] of an asynchronous generator gives. *)
Inductive step (A : Type) : Type :=
| Yield (a : A)
| StopAsyncIteration
| Throw (e : exn).
Arguments Yield {A} a.
Arguments StopAsyncIteration {A}.
Arguments Throw {A} e.

(** Where a generator of the shape
    [data = await ...; for x in data: yield f(x)] stands: not started,
    suspended at the [yield] with the rest of [data] ahead, or finished. *)
Inductive gen_state : Type :=
| Created
| Suspended (rest : list value)
| Closed.

(** The generator function's body: what runs before the loop, and the
    expression the loop yields for one element. *)
Record AsyncGenerator (A : Type) : Type := mkAsyncGenerator {
  prologue : M value;
  yielded : value -> M A
}.
Arguments mkAsyncGenerator {A} prologue yielded.
Arguments prologue {A} a.
Arguments yielded {A} a v.

Section Generators.
Variable A : Type.
Variable g : AsyncGenerator A.

(** Resume at the loop head with [rest] still to visit. *)
Definition resume (rest : list value) (w : World)
  : step A * gen_state * World :=
  match rest with
  | [] => (StopAsyncIteration, Closed, w)
  | x :: rest' =>
      match yielded g x w with
      | (Ok a, w') => (Yield a, Suspended rest', w')
      | (Raise e, w') => (Throw e, Closed, w')
      end
  end.

(** One [__anext__]. *)
Definition anext (st : gen_state) (w : World)
  : step A * gen_state * World :=
  match st with
  | Created =>
      match (data <- prologue g;; lift (iterate data)) w with
      | (Ok l, w') => resume l w'
      | (Raise e, w') => (Throw e, Closed, w')
      end
  | Suspended rest => resume rest w
  | Closed => (StopAsyncIteration, Closed, w)
  end.

(** The loop run to its end: the items yielded, in order, and the
    exception that ended it, if one did. *)
Fixpoint run_loop (rest : list value) (w : World)
  : list A * option exn * World :=
  match rest with
  | [] => ([], None, w)
  | x :: rest' =>
      match yielded g x w with
      | (Ok a, w') =>
          let '(items, e, w'') := run_loop rest' w' in
          (a :: items, e, w'')
      | (Raise e, w') => ([], Some e, w')
      end
  end.

(** [async for] over the generator until it is exhausted. *)
Definition async_for (st : gen_state) (w : World)
  : list A * option exn * World :=
  match st with
  | Created =>
      match (data <- prologue g;; lift (iterate data)) w with
      | (Ok l, w') => run_loop l w'
      | (Raise e, w') => ([], Some e, w')
      end
  | Suspended rest => run_loop rest w
  | Closed => ([], None, w)
  end.
End Generators.
Arguments resume {A} g rest w.
Arguments anext {A} g st w.
Arguments run_loop {A} g rest w.
Arguments async_for {A} g st w.

(** ** The class [ServerAwaiting] *)

Module ServerAwaiting.
Section Methods.
(** [routes.SERVER], [str.format] at one argument, and the answer of
    the remote service to a request given the calls before it. *)
Variable SERVER : Routes.
Variable format : string -> value -> string.
Variable remote : Context -> list call -> request -> result value.

(** Modelled from the spec: a dispatcher verb performs one HTTP call,
    and gives the decoded body or raises the remote or timeout error;
    the call is logged whatever its outcome. *)
Definition dispatch (ctx : Context) (r : request) : M value :=
  fun w => (remote ctx (calls w) r, logged w (ctx, r)).

Definition _get (ctx : Context) (url : string) (params : option dict)
    (timeout : option Z) : M value :=
  dispatch ctx (mkRequest GET url params None timeout None).

Definition _post (ctx : Context) (url : string) (data : option dict)
    (read_json : option bool) (timeout : option Z) : M value :=
  dispatch ctx (mkRequest POST url None data timeout read_json).

Definition _put (ctx : Context) (url : string) (data : option dict)
    : M value :=
  dispatch ctx (mkRequest PUT url None data None None).

Definition _delete (ctx : Context) (url : string) (timeout : option Z)
    : M value :=
  dispatch ctx (mkRequest DELETE url None None timeout None).

Definition delete (timeout : Z) : M unit :=
  s <- self;;
  _delete (context s) (format (route_delete SERVER) (server_id s))
    (Some timeout);;;
  ret tt.

Definition get : M ServerModel :=
  s <- self;;
  data <- _get (context s) (format (route_get SERVER) (server_id s))
            None None;;
  ret (mkServerModel data).

Definition update (settings : ServerSettings) : M unit :=
  s <- self;;
  _put (context s) (format (route_update SERVER) (server_id s))
    (Some (<["server_id" := server_id s]> (playload settings)));;;
  ret tt.

Definition console_send (line : string) : M unit :=
  s <- self;;
  _post (context s) (format (route_console SERVER) (server_id s))
    (Some {["line" := VStr line]}) None None;;;
  ret tt.

Definition console_retrive (lines : Z) : M value :=
  if (lines <? 1) || (lines >? 100000) then raise InvalidConsoleLine
  else
    s <- self;;
    data <- _get (context s)
              (format (route_console SERVER) (server_id s))
              (Some {["max_lines" := VInt lines]}) None;;
    lift (getitem data "lines").

Definition sync : M unit :=
  s <- self;;
  _post (context s) (format (route_sync SERVER) (server_id s))
    None None None;;;
  ret tt.

Definition duplicate (sync_ : bool) (timeout : Z)
    : M (ServerModel * ServerBase) :=
  (if sync_ then sync else ret tt);;;
  s <- self;;
  data <- _post (context s)
            (format (route_duplicate SERVER) (server_id s))
            None (Some true) (Some timeout);;
  s' <- self;;
  id <- lift (getitem data "id");;
  ret (mkServerModel data, mkServerBase (context s') id).

Definition ftp_reset : M unit :=
  s <- self;;
  _post (context s) (format (route_ftp SERVER) (server_id s))
    None None None;;;
  ret tt.

Definition stop (timeout : Z) : M unit :=
  s <- self;;
  _post (context s) (format (route_stop SERVER) (server_id s))
    None None (Some timeout);;;
  ret tt.

Definition start (timeout : Z) : M unit :=
  s <- self;;
  _post (context s) (format (route_start SERVER) (server_id s))
    None None (Some timeout);;;
  ret tt.

Definition reset (timeout : Z) : M unit :=
  s <- self;;
  _post (context s) (format (route_reset SERVER) (server_id s))
    None None (Some timeout);;;
  ret tt.

Definition file (pathway : value) : M AwaitingFile :=
  s <- self;;
  ret (mkAwaitingFile (context s) (server_id s) pathway).

Definition backup (backup_name : value) : M AwaitingBackup :=
  s <- self;;
  ret (mkAwaitingBackup (context s) (server_id s) backup_name).

(** [None] for [path] is Python's [None], its default. *)
Definition path_value (path : option string) : value :=
  match path with
  | Some p => VStr p
  | None => VNone
  end.

Definition files (hide_default : bool) (path : option string)
    (file_sizes : bool) (timeout : Z)
    : AsyncGenerator (FileModel * AwaitingFile) :=
  {| prologue :=
       s <- self;;
       _get (context s) (format (route_files SERVER) (server_id s))
         (Some (<["hide_default_files" := VBool hide_default]>
                  (<["path" := path_value path]>
                     {["with_filesizes" := VBool file_sizes]})))
         (Some timeout);
     yielded := fun file_ =>
       p <- lift (getitem file_ "path");;
       h <- file p;;
       ret (mkFileModel file_, h) |}.

Definition backups (timeout : Z)
    : AsyncGenerator (BackupModel * AwaitingBackup) :=
  {| prologue :=
       s <- self;;
       _get (context s) (format (route_backups SERVER) (server_id s))
         None (Some timeout);
     yielded := fun backup_ =>
       n <- lift (getitem backup_ "name");;
       h <- backup n;;
       ret (mkBackupModel backup_, h) |}.

Definition metrics : M MetricsModel :=
  s <- self;;
  data <- _get (context s) (format (route_metrics SERVER) (server_id s))
            None None;;
  ret (mkMetricsModel data).
End Methods.
End ServerAwaiting.

(** ** Calling a method by keyword *)

(** The sixteen methods of the class. *)
Inductive method : Type :=
| m_delete | m_get | m_update | m_console_send | m_console_retrive
| m_sync | m_duplicate | m_ftp_reset | m_stop | m_start | m_reset
| m_files | m_file | m_backups | m_backup | m_metrics.

(** The parameter names that occur in their [def] lines. *)
Inductive pname : Type :=
| p_timeout | p_settings | p_line | p_lines | p_sync | p_hide_default
| p_path | p_file_sizes | p_pathway | p_backup_name.

#[global] Instance method_eq_dec : EqDecision method.
Proof. solve_decision. Defined.

#[global] Instance pname_eq_dec : EqDecision pname.
Proof. solve_decision. Defined.

(** A set of keyword arguments, typed as the annotations say; a field is
    [None] when that keyword is absent. *)
Record arguments : Type := mkArguments {
  a_timeout : option Z;
  a_settings : option ServerSettings;
  a_line : option string;
  a_lines : option Z;
  a_sync : option bool;
  a_hide_default : option bool;
  a_path : option (option string);
  a_file_sizes : option bool;
  a_pathway : option value;
  a_backup_name : option value
}.

Definition no_arguments : arguments :=
  mkArguments None None None None None None None None None None.

(** The parameters each [def] line declares, [self] apart. *)
Definition parameters (m : method) : list pname :=
  match m with
  | m_delete => [p_timeout]
  | m_get => []
  | m_update => [p_settings]
  | m_console_send => [p_line]
  | m_console_retrive => [p_lines]
  | m_sync => []
  | m_duplicate => [p_sync; p_timeout]
  | m_ftp_reset => []
  | m_stop => [p_timeout]
  | m_start => [p_timeout]
  | m_reset => [p_timeout]
  | m_files => [p_hide_default; p_path; p_file_sizes; p_timeout]
  | m_file => [p_pathway]
  | m_backups => [p_timeout]
  | m_backup => [p_backup_name]
  | m_metrics => []
  end.

(** The default values each [def] line gives. *)
Definition defaults (m : method) : arguments :=
  match m with
  | m_delete => mkArguments (Some 60) None None None None None None None None None
  | m_console_retrive =>
      mkArguments None None None (Some 1000) None None None None None None
  | m_duplicate =>
      mkArguments (Some 60) None None None (Some false) None None None None None
  | m_stop => mkArguments (Some 60) None None None None None None None None None
  | m_start => mkArguments (Some 60) None None None None None None None None None
  | m_reset => mkArguments (Some 60) None None None None None None None None None
  | m_files =>
      mkArguments (Some 30) None None None None (Some false) (Some None)
        (Some false) None None
  | m_backups => mkArguments (Some 30) None None None None None None None None None
  | _ => no_arguments
  end.

Definition present {A} (o : option A) (p : pname) : list pname :=
  match o with
  | Some _ => [p]
  | None => []
  end.

(** The keywords a set of arguments holds. *)
Definition supplied (a : arguments) : list pname :=
  present (a_timeout a) p_timeout ++ present (a_settings a) p_settings ++
  present (a_line a) p_line ++ present (a_lines a) p_lines ++
  present (a_sync a) p_sync ++ present (a_hide_default a) p_hide_default ++
  present (a_path a) p_path ++ present (a_file_sizes a) p_file_sizes ++
  present (a_pathway a) p_pathway ++ present (a_backup_name a) p_backup_name.

Definition or_else {A} (o d : option A) : option A :=
  match o with
  | Some x => Some x
  | None => d
  end.

(** The arguments passed, completed by the defaults [d]. *)
Definition complete (a d : arguments) : arguments :=
  {| a_timeout := or_else (a_timeout a) (a_timeout d);
     a_settings := or_else (a_settings a) (a_settings d);
     a_line := or_else (a_line a) (a_line d);
     a_lines := or_else (a_lines a) (a_lines d);
     a_sync := or_else (a_sync a) (a_sync d);
     a_hide_default := or_else (a_hide_default a) (a_hide_default d);
     a_path := or_else (a_path a) (a_path d);
     a_file_sizes := or_else (a_file_sizes a) (a_file_sizes d);
     a_pathway := or_else (a_pathway a) (a_pathway d);
     a_backup_name := or_else (a_backup_name a) (a_backup_name d) |}.

(** Python's binding of keyword arguments: a keyword the method does not
    declare, or a parameter left without a value, is a [TypeError] raised
    before the body runs. *)
Definition bind_arguments (m : method) (a : arguments) : result arguments :=
  let b := complete a (defaults m) in
  if forallb (fun p => bool_decide (p ∈ parameters m)) (supplied a)
     && forallb (fun p => bool_decide (p ∈ supplied b)) (parameters m)
  then Ok b
  else Raise TypeError.

Definition accepts_timeout (m : method) : bool :=
  bool_decide (p_timeout ∈ parameters m).

(** The methods whose body calls the dispatcher; [file] and [backup] only
    construct a child handle. *)
Definition network_issuing (m : method) : bool :=
  match m with
  | m_file | m_backup => false
  | _ => true
  end.

(** What a method call gives its caller.  For the two generators it is
    what an [async for] over the call sees: the items in order and the
    exception that ended the loop, if any. *)
Inductive retval : Type :=
| RNone
| RServerModel (m : ServerModel)
| RLines (v : value)
| RDuplicate (m : ServerModel) (h : ServerBase)
| RFiles (items : list (FileModel * AwaitingFile)) (e : option exn)
| RFile (h : AwaitingFile)
| RBackups (items : list (BackupModel * AwaitingBackup)) (e : option exn)
| RBackup (h : AwaitingBackup)
| RMetrics (m : MetricsModel).

Definition arg {A} (o : option A) : M A :=
  match o with
  | Some x => ret x
  | None => raise TypeError
  end.

Section Invoke.
Variable SERVER : Routes.
Variable format : string -> value -> string.
Variable remote : Context -> list call -> request -> result value.

Import ServerAwaiting.

Definition run_method (m : method) (b : arguments) : M retval :=
  match m with
  | m_delete =>
      t <- arg (a_timeout b);;
      delete SERVER format remote t;;; ret RNone
  | m_get => x <- get SERVER format remote;; ret (RServerModel x)
  | m_update =>
      st <- arg (a_settings b);;
      update SERVER format remote st;;; ret RNone
  | m_console_send =>
      l <- arg (a_line b);;
      console_send SERVER format remote l;;; ret RNone
  | m_console_retrive =>
      n <- arg (a_lines b);;
      v <- console_retrive SERVER format remote n;; ret (RLines v)
  | m_sync => sync SERVER format remote;;; ret RNone
  | m_duplicate =>
      sy <- arg (a_sync b);;
      t <- arg (a_timeout b);;
      x <- duplicate SERVER format remote sy t;;
      ret (RDuplicate (fst x) (snd x))
  | m_ftp_reset => ftp_reset SERVER format remote;;; ret RNone
  | m_stop =>
      t <- arg (a_timeout b);;
      stop SERVER format remote t;;; ret RNone
  | m_start =>
      t <- arg (a_timeout b);;
      start SERVER format remote t;;; ret RNone
  | m_reset =>
      t <- arg (a_timeout b);;
      reset SERVER format remote t;;; ret RNone
  | m_files =>
      hd <- arg (a_hide_default b);;
      pa <- arg (a_path b);;
      fs <- arg (a_file_sizes b);;
      t <- arg (a_timeout b);;
      fun w =>
        let '(items, e, w') :=
          async_for (files SERVER format remote hd pa fs t) Created w in
        (Ok (RFiles items e), w')
  | m_file =>
      pw <- arg (a_pathway b);;
      h <- file pw;; ret (RFile h)
  | m_backups =>
      t <- arg (a_timeout b);;
      fun w =>
        let '(items, e, w') :=
          async_for (backups SERVER format remote t) Created w in
        (Ok (RBackups items e), w')
  | m_backup =>
      bn <- arg (a_backup_name b);;
      h <- backup bn;; ret (RBackup h)
  | m_metrics => x <- metrics SERVER format remote;; ret (RMetrics x)
  end.

Definition invoke (m : method) (a : arguments) : M retval :=
  b <- lift (bind_arguments m a);;
  run_method m b.
End Invoke.

(** ** A concrete service, for examples *)

Definition example_routes : Routes :=
  {| route_delete := "game-servers/{}";
     route_get := "game-servers/{}";
     route_update := "game-servers/{}";
     route_console := "game-servers/{}/console";
     route_sync := "game-servers/{}/sync-files";
     route_duplicate := "game-servers/{}/duplicate";
     route_ftp := "game-servers/{}/regenerate-ftp-password";
     route_stop := "game-servers/{}/stop";
     route_start := "game-servers/{}/start";
     route_reset := "game-servers/{}/reset";
     route_files := "game-servers/{}/files";
     route_backups := "game-servers/{}/backups";
     route_metrics := "game-servers/{}/metrics" |}.

Definition example_text (v : value) : string :=
  match v with
  | VStr s => s
  | _ => EmptyString
  end.

(** [str.format] for a template with one [{}] and a string argument. *)
Fixpoint example_format (template : string) (v : value) : string :=
  match template with
  | String "{"%char (String "}"%char rest) => (example_text v ++ rest)%string
  | String c rest => String c (example_format rest v)
  | EmptyString => EmptyString
  end.

Definition example_file : value :=
  VDict (<["path" := VStr "a.cfg"]> {["size" := VInt 10]}).

Definition example_backup (name : string) : value :=
  VDict {["name" := VStr name]}.

(** A service with one server, ["srv1"], holding one file and two
    backups; its duplicate is ["srv2"]. *)
Definition example_remote (ctx : Context) (log : list call) (r : request)
    : result value :=
  match req_verb r with
  | GET =>
      if String.eqb (req_url r) "game-servers/srv1/files"
      then Ok (VList [example_file])
      else if String.eqb (req_url r) "game-servers/srv1/backups"
      then Ok (VList [example_backup "monday"; example_backup "tuesday"])
      else if String.eqb (req_url r) "game-servers/srv1/console"
      then Ok (VDict {["lines" := VList [VStr "Server started"]]})
      else Ok (VDict ∅)
  | POST =>
      if String.eqb (req_url r) "game-servers/srv1/duplicate"
      then Ok (VDict {["id" := VStr "srv2"]})
      else Ok VNone
  | _ => Ok VNone
  end.

(** A service whose listings hold an element without the listing's key,
    between two that have it. *)
Definition patchy_remote (ctx : Context) (log : list call) (r : request)
    : result value :=
  Ok (VList [example_file; VDict {["size" := VInt 3]}; example_file]).

Definition example_context : Context :=
  {| credentials := "user@example.org"; base_url := "https://dathost.net/api/0.1" |}.

Definition example_world : World :=
  {| this := {| context := example_context; server_id := VStr "srv1" |};
     calls := [] |}.

(** A handle on a server the example service does not know. *)
Definition other_world : World :=
  {| this := {| context := example_context; server_id := VStr "srv9" |};
     calls := [] |}.

Definition example_settings : ServerSettings :=
  {| playload := <["name" := VStr "lobby"]> {["server_id" := VStr "other"]} |}.

Abbreviation ex_console_retrive :=
  (ServerAwaiting.console_retrive example_routes example_format example_remote).
Abbreviation ex_duplicate :=
  (ServerAwaiting.duplicate example_routes example_format example_remote).
Abbreviation ex_update :=
  (ServerAwaiting.update example_routes example_format example_remote).
Abbreviation ex_files :=
  (ServerAwaiting.files example_routes example_format example_remote).
Abbreviation ex_backups :=
  (ServerAwaiting.backups example_routes example_format example_remote).

(** ** The requests the methods send *)

Section Requests.
Variable SERVER : Routes.
Variable format : string -> value -> string.

(** The GET of [console_retrive]. *)
Definition console_request (lines : Z) (s : ServerBase) : request :=
  mkRequest GET (format (route_console SERVER) (server_id s))
    (Some {["max_lines" := VInt lines]}) None None None.

(** The POST of [sync]. *)
Definition sync_request (s : ServerBase) : request :=
  mkRequest POST (format (route_sync SERVER) (server_id s))
    None None None None.

(** The POST of [duplicate]. *)
Definition duplicate_request (timeout : Z) (s : ServerBase) : request :=
  mkRequest POST (format (route_duplicate SERVER) (server_id s))
    None None (Some timeout) (Some true).

(** The PUT of [update] with body [body]. *)
Definition update_request (body : dict) (s : ServerBase) : request :=
  mkRequest PUT (format (route_update SERVER) (server_id s))
    None (Some body) None None.

(** The GET of [files] with query parameters [params]. *)
Definition files_request (params : dict) (timeout : Z) (s : ServerBase)
    : request :=
  mkRequest GET (format (route_files SERVER) (server_id s))
    (Some params) None (Some timeout) None.

(** The GET of [backups]. *)
Definition backups_request (timeout : Z) (s : ServerBase) : request :=
  mkRequest GET (format (route_backups SERVER) (server_id s))
    None None (Some timeout) None.

(** The query parameters [files] builds from its arguments. *)
Definition files_params (hide_default : bool) (path : option string)
    (file_sizes : bool) : dict :=
  <["hide_default_files" := VBool hide_default]>
    (<["path" := ServerAwaiting.path_value path]>
       {["with_filesizes" := VBool file_sizes]}).
End Requests.

(** An element that has the key a listing addresses its handle by. *)
Definition has_key (key : string) (x : value) : Prop :=
  exists v, getitem x key = Ok v.

Definition key_of (key : string) (x : value) : value :=
  match getitem x key with
  | Ok v => v
  | Raise _ => VNone
  end.

(** The pair a listing yields for an element [x] that has its key. *)
Definition file_pair (s : ServerBase) (x : value) : FileModel * AwaitingFile :=
  (mkFileModel x, mkAwaitingFile (context s) (server_id s) (key_of "path" x)).

Definition backup_pair (s : ServerBase) (x : value)
    : BackupModel * AwaitingBackup :=
  (mkBackupModel x,
   mkAwaitingBackup (context s) (server_id s) (key_of "name" x)).

(** A method that leaves the receiver as it found it. *)
Definition keeps_self {A} (m : M A) : Prop :=
  forall w, this (snd (m w)) = this w.

(** ** Endpoints *)

Section Endpoints.
Variable SERVER : Routes.
Variable format : string -> value -> string.

(** The verb and the route template of the request a method's body sends
    for itself; [file] and [backup] send none. *)
Definition endpoint (m : method) : option (verb * string) :=
  match m with
  | m_delete => Some (DELETE, route_delete SERVER)
  | m_get => Some (GET, route_get SERVER)
  | m_update => Some (PUT, route_update SERVER)
  | m_console_send => Some (POST, route_console SERVER)
  | m_console_retrive => Some (GET, route_console SERVER)
  | m_sync => Some (POST, route_sync SERVER)
  | m_duplicate => Some (POST, route_duplicate SERVER)
  | m_ftp_reset => Some (POST, route_ftp SERVER)
  | m_stop => Some (POST, route_stop SERVER)
  | m_start => Some (POST, route_start SERVER)
  | m_reset => Some (POST, route_reset SERVER)
  | m_files => Some (GET, route_files SERVER)
  | m_file => None
  | m_backups => Some (GET, route_backups SERVER)
  | m_backup => None
  | m_metrics => Some (GET, route_metrics SERVER)
  end.

(** The call [c] goes through the context of [s] to the endpoint of [m],
    with the server id of [s] in its URL. *)
Definition at_endpoint (m : method) (s : ServerBase) (c : call) : Prop :=
  c.1 = context s
  /\ exists template,
       endpoint m = Some (req_verb c.2, template)
       /\ req_url c.2 = format template (server_id s).

(** The calls a call of [m] may make: its own endpoint, and the sync
    endpoint as well for [duplicate]. *)
Definition scoped (m : method) (s : ServerBase) (c : call) : Prop :=
  at_endpoint m s c \/ (m = m_duplicate /\ at_endpoint m_sync s c).
End Endpoints.

(** A service that answers every request with the exception [e]. *)
Definition failing_remote (e : exn) (ctx : Context) (log : list call)
    (r : request) : result value :=
  Raise e.

(** The most calls one call of a method can make. *)
Definition call_budget (m : method) : nat :=
  match m with
  | m_duplicate => 2
  | m_file | m_backup => 0
  | _ => 1
  end.

(** ** [setup.py]: the package version *)

Module Setup.

(** The two ways [get_version] fails: [open] raises an [OSError], or
    [re.search] finds nothing and [.group] is asked of [None]. *)
Inductive error : Type :=
| OSError
| AttributeError.

Inductive outcome (A : Type) : Type :=
| Done (a : A)
| Failed (e : error).
Arguments Done {A} a.
Arguments Failed {A} e.

(** The two characters of the pattern's class: the apostrophe and the
    double quote. *)
Definition apostrophe : ascii := ascii_of_nat 39.
Definition double_quote : ascii := ascii_of_nat 34.

Definition is_quote (c : ascii) : bool :=
  Ascii.eqb c apostrophe || Ascii.eqb c double_quote.

(** The literal head of the pattern. *)
Definition marker : string := "__version__ = ".

(** [s] without its prefix [p], when it has that prefix. *)
Fixpoint strip_prefix (p s : string) : option string :=
  match p with
  | EmptyString => Some s
  | String c p' =>
      match s with
      | String d s' => if Ascii.eqb c d then strip_prefix p' s' else None
      | EmptyString => None
      end
  end.

(** The longest run of characters other than quotes at the head of [s],
    and what follows it: what the greedy negated class consumes. *)
Fixpoint span_unquoted (s : string) : string * string :=
  match s with
  | EmptyString => (EmptyString, EmptyString)
  | String c s' =>
      if is_quote c then (EmptyString, s)
      else let (v, rest) := span_unquoted s' in (String c v, rest)
  end.

(** The pattern matched at the head of [s], giving its group 1: the
    marker, a quote, a non-empty run of characters other than quotes, a
    quote.  A run shorter than the longest is followed by a character of
    the run, so that backtracking finds nothing the longest run does
    not. *)
Definition match_here (s : string) : option string :=
  match strip_prefix marker s with
  | Some (String q body) =>
      if is_quote q then
        match span_unquoted body with
        | (String c v, String _ _) => Some (String c v)
        | _ => None
        end
      else None
  | _ => None
  end.

(** [re.search]: the match at the leftmost position that has one. *)
Fixpoint search (s : string) : option string :=
  match match_here s with
  | Some v => Some v
  | None =>
      match s with
      | EmptyString => None
      | String _ s' => search s'
      end
  end.

Fixpoint ends_with_sep (s : string) : bool :=
  match s with
  | EmptyString => false
  | String c EmptyString => Ascii.eqb c "/"
  | String _ s' => ends_with_sep s'
  end.

(** [os.path.join] of two components, as [posixpath] has it. *)
Definition join (a b : string) : string :=
  match b with
  | String "/" _ => b
  | _ =>
      match a with
      | EmptyString => b
      | _ => if ends_with_sep a then (a ++ b)%string
             else (a ++ String "/" b)%string
      end
  end.

(** Whether [p] occurs in [s]. *)
Fixpoint occurs (p s : string) : bool :=
  match strip_prefix p s with
  | Some _ => true
  | None =>
      match s with
      | EmptyString => false
      | String _ s' => occurs p s'
      end
  end.

(** Whether [v] holds no quote. *)
Fixpoint unquoted (v : string) : bool :=
  match v with
  | EmptyString => true
  | String c v' => negb (is_quote c) && unquoted v'
  end.

Section Files.
(** [open(path).read()]: the text of the file, or the failure to open
    it. *)
Variable read : string -> outcome string.

Definition get_version (package : string) : outcome string :=
  match read (join package "__init__.py") with
  | Failed e => Failed e
  | Done text =>
      match search text with
      | Some v => Done v
      | None => Failed AttributeError
      end
  end.
End Files.

(** A package directory with one module. *)
Definition example_read (path : string) : outcome string :=
  if String.eqb path "aiodathost/__init__.py"
  then Done "from .client import Awaiting  # 'client'
__version__ = '0.1.4'
__author__ = 'WardPearce'
"
  else Failed OSError.
End Setup.

(** * Properties *)

Section Properties.
Variable SERVER : Routes.
Variable format : string -> value -> string.
Variable remote : Context -> list call -> request -> result value.

Abbreviation console_retrive :=
  (ServerAwaiting.console_retrive SERVER format remote).
Abbreviation duplicate := (ServerAwaiting.duplicate SERVER format remote).
Abbreviation update := (ServerAwaiting.update SERVER format remote).
Abbreviation files := (ServerAwaiting.files SERVER format remote).
Abbreviation backups := (ServerAwaiting.backups SERVER format remote).

Lemma out_of_range_test (lines : Z) :
  lines < 1 \/ lines > 100000 ->
  (lines <? 1) || (lines >? 100000) = true.
Proof.
  intros [H | H]; apply orb_true_iff; [left | right].
  - now apply Z.ltb_lt.
  - apply Z.gtb_lt. lia.
Qed.

Lemma in_range_test (lines : Z) :
  1 <= lines <= 100000 ->
  (lines <? 1) || (lines >? 100000) = false.
Proof.
  intros [H1 H2]. apply orb_false_iff. split.
  - now apply Z.ltb_ge.
  - rewrite Z.gtb_ltb. apply Z.ltb_ge. lia.
Qed.

(** C1: for every integer [lines] below 1 or above 100000,
    [console_retrive] raises [InvalidConsoleLine] and the world it
    leaves is the one it started in: the call log is unchanged, so no
    dispatcher verb was invoked. *)
Theorem console_retrive_rejects (lines : Z) (w : World) :
  lines < 1 \/ lines > 100000 ->
  console_retrive lines w = (Raise InvalidConsoleLine, w)
  /\ calls (snd (console_retrive lines w)) = calls w.
Proof.
  intros H. unfold ServerAwaiting.console_retrive.
  rewrite (out_of_range_test lines H). split; reflexivity.
Qed.

(** C5: for every integer [lines] from 1 to 100000, [console_retrive]
    adds exactly one call to the log, a GET whose query parameters are
    the single entry ["max_lines"] with value [lines]. *)
Theorem console_retrive_one_get (lines : Z) (w : World) :
  1 <= lines <= 100000 ->
  calls (snd (console_retrive lines w))
    = calls w
        ++ [(context (this w), console_request SERVER format lines (this w))]
  /\ req_verb (console_request SERVER format lines (this w)) = GET
  /\ req_params (console_request SERVER format lines (this w))
       = Some {["max_lines" := VInt lines]}.
Proof.
  intros H. unfold ServerAwaiting.console_retrive.
  rewrite (in_range_test lines H).
  unfold bind, self, ServerAwaiting._get, ServerAwaiting.dispatch, lift.
  cbn. destruct (remote _ _ _); cbn; repeat split; reflexivity.
Qed.

(** C9: for [lines] in range and a response that is a JSON object,
    [console_retrive] returns the value under the object's ["lines"]
    key, and raises [KeyError] when the object has no such key. *)
Theorem console_retrive_returns_lines (lines : Z) (w : World) (d : dict) :
  1 <= lines <= 100000 ->
  remote (context (this w)) (calls w)
    (console_request SERVER format lines (this w)) = Ok (VDict d) ->
  fst (console_retrive lines w)
    = match d !! "lines" with
      | Some v => Ok v
      | None => Raise (KeyError "lines")
      end.
Proof.
  intros H Hd. unfold ServerAwaiting.console_retrive.
  rewrite (in_range_test lines H).
  unfold bind, self, ServerAwaiting._get, ServerAwaiting.dispatch, lift.
  cbn. unfold console_request in Hd. rewrite Hd. cbn.
  destruct (d !! "lines"); reflexivity.
Qed.

(** C2: [duplicate] with [sync] set logs the sync POST first and the
    duplicate POST right after it (the latter only when the sync call
    did not raise); with [sync] unset it logs the duplicate POST and
    nothing else. *)
Theorem duplicate_sync_order (timeout : Z) (w : World) :
  calls (snd (duplicate true timeout w))
    = calls w
        ++ (context (this w), sync_request SERVER format (this w))
        :: match remote (context (this w)) (calls w)
                   (sync_request SERVER format (this w)) with
           | Ok _ =>
               [(context (this w),
                 duplicate_request SERVER format timeout (this w))]
           | Raise _ => []
           end
  /\ calls (snd (duplicate false timeout w))
     = calls w
         ++ [(context (this w),
              duplicate_request SERVER format timeout (this w))]
  /\ req_verb (sync_request SERVER format (this w)) = POST
  /\ req_url (sync_request SERVER format (this w))
     = format (route_sync SERVER) (server_id (this w))
  /\ req_verb (duplicate_request SERVER format timeout (this w)) = POST.
Proof.
  unfold ServerAwaiting.duplicate, ServerAwaiting.sync, bind, self,
    ServerAwaiting._post, ServerAwaiting.dispatch, ret, lift.
  cbn. fold (sync_request SERVER format (this w)).
  fold (duplicate_request SERVER format timeout (this w)).
  repeat split.
  - destruct (remote _ (calls w) _); cbn; [| reflexivity].
    destruct (remote _ _ _) as [data |]; cbn; [| now rewrite <- app_assoc].
    destruct (getitem data "id"); cbn; now rewrite <- app_assoc.
  - destruct (remote _ _ _) as [data |]; cbn; [| reflexivity].
    destruct (getitem data "id"); reflexivity.
Qed.

(** The log the duplicate POST is answered against. *)
Lemma duplicate_ok_inv (sync_ : bool) (timeout : Z) (w w' : World)
    (x : ServerModel * ServerBase) :
  duplicate sync_ timeout w = (Ok x, w') ->
  exists data id,
    remote (context (this w))
      (calls w ++ (if sync_
                   then [(context (this w),
                          sync_request SERVER format (this w))]
                   else []))
      (duplicate_request SERVER format timeout (this w)) = Ok data
    /\ getitem data "id" = Ok id
    /\ x = (mkServerModel data, mkServerBase (context (this w)) id).
Proof.
  unfold ServerAwaiting.duplicate, ServerAwaiting.sync, bind, self,
    ServerAwaiting._post, ServerAwaiting.dispatch, ret, lift.
  cbn. fold (sync_request SERVER format (this w)).
  fold (duplicate_request SERVER format timeout (this w)).
  destruct sync_; cbn.
  - destruct (remote _ (calls w) _); cbn; [| discriminate].
    destruct (remote _ _ _) as [data |] eqn:E; cbn; [| discriminate].
    destruct (getitem data "id") as [id |] eqn:Eid; cbn; [| discriminate].
    intros [= <- <-]. exists data, id. auto.
  - rewrite app_nil_r.
    destruct (remote _ _ _) as [data |] eqn:E; cbn; [| discriminate].
    destruct (getitem data "id") as [id |] eqn:Eid; cbn; [| discriminate].
    intros [= <- <-]. exists data, id. auto.
Qed.

(** C10: when [duplicate] returns, its first component wraps the body
    the duplicate POST was answered with, and its second is a handle
    whose server id is that body's ["id"] entry and whose context is
    the receiver's. *)
Theorem duplicate_returns_new_handle (sync_ : bool) (timeout : Z)
    (w w' : World) (m : ServerModel) (h : ServerBase) :
  duplicate sync_ timeout w = (Ok (m, h), w') ->
  exists data,
    remote (context (this w))
      (calls w ++ (if sync_
                   then [(context (this w),
                          sync_request SERVER format (this w))]
                   else []))
      (duplicate_request SERVER format timeout (this w)) = Ok data
    /\ m = mkServerModel data
    /\ getitem data "id" = Ok (server_id h)
    /\ context h = context (this w).
Proof.
  intros H. destruct (duplicate_ok_inv _ _ _ _ _ H) as (data & id & ? & ? & E).
  injection E as -> ->. exists data. auto.
Qed.

(** C6: [update] logs exactly one call, a PUT whose body is the
    settings' mapping with the receiver's server id stored under
    ["server_id"]; every other key has the value the settings gave it. *)
Theorem update_one_put (settings : ServerSettings) (w : World) :
  calls (snd (update settings w))
    = calls w
        ++ [(context (this w),
             update_request SERVER format
               (<["server_id" := server_id (this w)]> (playload settings))
               (this w))]
  /\ (<["server_id" := server_id (this w)]> (playload settings))
       !! "server_id" = Some (server_id (this w))
  /\ (forall k : string, k <> "server_id" ->
      (<["server_id" := server_id (this w)]> (playload settings)) !! k
        = playload settings !! k).
Proof.
  unfold ServerAwaiting.update, bind, self, ServerAwaiting._put,
    ServerAwaiting.dispatch, ret.
  cbn. repeat split.
  - destruct (remote _ _ _); reflexivity.
  - apply lookup_insert_eq.
  - intros k Hk. now apply lookup_insert_ne.
Qed.

(** A successful sync (if asked for), a body for the duplicate POST and
    an ["id"] in it are all [duplicate] needs to return. *)
Lemma duplicate_succeeds (sync_ : bool) (timeout : Z) (w : World)
    (data id : value) :
  (sync_ = true ->
   exists v, remote (context (this w)) (calls w)
               (sync_request SERVER format (this w)) = Ok v) ->
  remote (context (this w))
    (calls w ++ (if sync_
                 then [(context (this w), sync_request SERVER format (this w))]
                 else []))
    (duplicate_request SERVER format timeout (this w)) = Ok data ->
  getitem data "id" = Ok id ->
  fst (duplicate sync_ timeout w)
    = Ok (mkServerModel data, mkServerBase (context (this w)) id).
Proof.
  intros Hs Hd Hid.
  unfold ServerAwaiting.duplicate, ServerAwaiting.sync, bind, self,
    ServerAwaiting._post, ServerAwaiting.dispatch, ret, lift.
  unfold sync_request, duplicate_request in *.
  destruct sync_; cbn in *.
  - destruct (Hs eq_refl) as [v Hv]. rewrite Hv. cbn.
    rewrite Hd. cbn. now rewrite Hid.
  - rewrite app_nil_r in Hd. rewrite Hd. cbn. now rewrite Hid.
Qed.

(** *** The listing generators *)

(** [async_for] is [anext] repeated until the generator stops or
    raises. *)
Lemma async_for_anext {A} (g : AsyncGenerator A) (st : gen_state)
    (w : World) :
  async_for g st w
    = match anext g st w with
      | (Yield a, st', w') =>
          let '(items, e, w'') := async_for g st' w' in (a :: items, e, w'')
      | (StopAsyncIteration, _, w') => ([], None, w')
      | (Throw e, _, w') => ([], Some e, w')
      end.
Proof.
  assert (Hres : forall rest w0,
            run_loop g rest w0
              = match resume g rest w0 with
                | (Yield a, st', w') =>
                    let '(items, e, w'') := async_for g st' w' in
                    (a :: items, e, w'')
                | (StopAsyncIteration, _, w') => ([], None, w')
                | (Throw e, _, w') => ([], Some e, w')
                end).
  { intros [| x rest] w0; cbn; [reflexivity |].
    destruct (yielded g x w0) as [[a | e] w1]; reflexivity. }
  destruct st as [| rest |]; cbn -[run_loop resume].
  - destruct ((data <- prologue g;; lift (iterate data)) w) as [[l | e] w1].
    + apply Hres.
    + reflexivity.
  - apply Hres.
  - reflexivity.
Qed.

(** The loop body of [files] reads the receiver and leaves the world
    alone. *)
Lemma files_yielded hd pa fs t (x : value) (w : World) :
  yielded (files hd pa fs t) x w
    = (match getitem x "path" with
       | Ok p =>
           Ok (mkFileModel x,
               mkAwaitingFile (context (this w)) (server_id (this w)) p)
       | Raise e => Raise e
       end, w).
Proof.
  cbn. unfold bind, lift, ServerAwaiting.file, self, ret.
  destruct (getitem x "path"); reflexivity.
Qed.

Lemma backups_yielded t (x : value) (w : World) :
  yielded (backups t) x w
    = (match getitem x "name" with
       | Ok n =>
           Ok (mkBackupModel x,
               mkAwaitingBackup (context (this w)) (server_id (this w)) n)
       | Raise e => Raise e
       end, w).
Proof.
  cbn. unfold bind, lift, ServerAwaiting.backup, self, ret.
  destruct (getitem x "name"); reflexivity.
Qed.

(** A loop whose body leaves the world alone does so as a whole. *)
Lemma run_loop_world {A} (g : AsyncGenerator A) :
  (forall x w, snd (yielded g x w) = w) ->
  forall rest w, snd (run_loop g rest w) = w.
Proof.
  intros Hg rest. induction rest as [| x rest IH]; intros w; cbn.
  - reflexivity.
  - specialize (Hg x w). destruct (yielded g x w) as [[a | e] w1].
    + cbn in Hg. subst w1. specialize (IH w).
      destruct (run_loop g rest w) as [[items e] w2]. exact IH.
    + exact Hg.
Qed.

(** When every element passes the loop body, the loop yields one item
    per element, in order, and ends without an exception. *)
Lemma run_loop_all {A} (g : AsyncGenerator A) (f : value -> A)
    (P : value -> Prop) (w : World) :
  (forall x, P x -> yielded g x w = (Ok (f x), w)) ->
  forall rest, Forall P rest ->
    run_loop g rest w = (f <$> rest, None, w).
Proof.
  intros Hg rest. induction rest as [| x rest IH]; intros HP; cbn.
  - reflexivity.
  - apply Forall_cons in HP as [Hx Hrest].
    rewrite (Hg x Hx), (IH Hrest). reflexivity.
Qed.

(** Whatever the elements, the items yielded come from an initial
    segment of the data, one per element and in order: none is
    skipped, and without an exception the segment is the whole. *)
Lemma run_loop_prefix {A B} (g : AsyncGenerator A) (view : A -> B)
    (wrap : value -> B) (w : World) :
  (forall x a w', yielded g x w = (Ok a, w') -> view a = wrap x /\ w' = w) ->
  forall rest items e w',
    run_loop g rest w = (items, e, w') ->
    view <$> items = wrap <$> take (length items) rest
    /\ (e = None -> length items = length rest).
Proof.
  intros Hg rest. induction rest as [| x rest IH]; intros items e w'; cbn.
  - intros [= <- <- <-]. auto.
  - destruct (yielded g x w) as [[a | e1] w1] eqn:E.
    + destruct (Hg _ _ _ E) as [Ha ->].
      destruct (run_loop g rest w) as [[items1 e2] w2] eqn:E2.
      intros [= <- <- <-]. destruct (IH _ _ _ eq_refl) as [IH1 IH2].
      cbn. rewrite Ha, IH1. split; [reflexivity |].
      intros He. now rewrite (IH2 He).
    + intros [= <- <- <-]. cbn. split; [reflexivity | discriminate].
Qed.

(** C3, as the code has it: when the listing GET answers with an array
    whose elements each have the listing's key (["path"] for files,
    ["name"] for backups), [files] and [backups] yield one (model,
    handle) pair per element, in array order, the handle addressed by
    the receiver's server id and that element's key, and end without an
    exception; the empty array yields nothing. *)
Theorem listings_yield_pair_per_element (hd fs : bool) (pa : option string)
    (t : Z) (w : World) (arr : list value) :
  (remote (context (this w)) (calls w)
     (files_request SERVER format (files_params hd pa fs) t (this w))
     = Ok (VList arr) ->
   Forall (has_key "path") arr ->
   async_for (files hd pa fs t) Created w
     = (file_pair (this w) <$> arr, None,
        logged w (context (this w),
                  files_request SERVER format (files_params hd pa fs) t
                    (this w)))
   /\ length (file_pair (this w) <$> arr) = length arr)
  /\ (remote (context (this w)) (calls w)
        (backups_request SERVER format t (this w)) = Ok (VList arr) ->
      Forall (has_key "name") arr ->
      async_for (backups t) Created w
        = (backup_pair (this w) <$> arr, None,
           logged w (context (this w),
                     backups_request SERVER format t (this w)))
      /\ length (backup_pair (this w) <$> arr) = length arr).
Proof.
  split; intros Hr Harr; (split; [| apply length_fmap]).
  - unfold async_for. cbn -[yielded run_loop].
    unfold bind, self, ServerAwaiting._get, ServerAwaiting.dispatch, lift.
    unfold files_request, files_params in Hr. cbn in Hr |- *.
    rewrite Hr. cbn -[run_loop].
    apply (run_loop_all _ (file_pair (this w)) (has_key "path")); [| exact Harr].
    intros x [v Hv]. rewrite files_yielded. unfold file_pair, key_of.
    cbn. now rewrite Hv.
  - unfold async_for. cbn -[yielded run_loop].
    unfold bind, self, ServerAwaiting._get, ServerAwaiting.dispatch, lift.
    unfold backups_request in Hr. cbn in Hr |- *.
    rewrite Hr. cbn -[run_loop].
    apply (run_loop_all _ (backup_pair (this w)) (has_key "name")); [| exact Harr].
    intros x [v Hv]. rewrite backups_yielded. unfold backup_pair, key_of.
    cbn. now rewrite Hv.
Qed.

(** Started from scratch, [files] leaves the world with its one GET
    logged, whatever the answer and however the loop ends. *)
Lemma files_world hd pa fs t (w : World) :
  snd (async_for (files hd pa fs t) Created w)
    = logged w (context (this w),
                files_request SERVER format (files_params hd pa fs) t
                  (this w)).
Proof.
  unfold async_for. cbn -[yielded run_loop].
  unfold bind, self, ServerAwaiting._get, ServerAwaiting.dispatch, lift.
  cbn -[yielded run_loop].
  fold (files_params hd pa fs).
  fold (files_request SERVER format (files_params hd pa fs) t (this w)).
  destruct (remote _ _ _) as [data |]; [| reflexivity].
  destruct (iterate data) as [l |]; [| reflexivity].
  apply run_loop_world. intros x w0. now rewrite files_yielded.
Qed.

(** C7: whatever [hide_default], [path] and [file_sizes] are, a full
    run of [files] logs exactly one call, a GET whose query parameters
    are the two flags under ["hide_default_files"] and
    ["with_filesizes"] and, under ["path"], the path as a string when
    one is given and [None] when none is, and nothing else; and the
    models it yields are the elements of an initial segment of the
    answered array, one per element and in order, the whole array when
    the run ends without an exception. *)
Theorem files_forwards_filters (hd fs : bool) (pa : option string) (t : Z)
    (w w' : World) (items : list (FileModel * AwaitingFile))
    (e : option exn) :
  async_for (files hd pa fs t) Created w = (items, e, w') ->
  calls w'
    = calls w
        ++ [(context (this w),
             files_request SERVER format (files_params hd pa fs) t (this w))]
  /\ req_verb (files_request SERVER format (files_params hd pa fs) t (this w))
     = GET
  /\ req_params
       (files_request SERVER format (files_params hd pa fs) t (this w))
     = Some (files_params hd pa fs)
  /\ files_params hd pa fs !! "hide_default_files" = Some (VBool hd)
  /\ files_params hd pa fs !! "path"
       = Some (match pa with
               | Some p => VStr p
               | None => VNone
               end)
  /\ files_params hd pa fs !! "with_filesizes" = Some (VBool fs)
  /\ (forall k : string,
        k <> "hide_default_files" -> k <> "path" -> k <> "with_filesizes" ->
        files_params hd pa fs !! k = None)
  /\ (forall arr,
        remote (context (this w)) (calls w)
          (files_request SERVER format (files_params hd pa fs) t (this w))
          = Ok (VList arr) ->
        items.*1 = mkFileModel <$> take (length items) arr
        /\ (e = None -> items.*1 = mkFileModel <$> arr)).
Proof.
  intros H. pose proof (files_world hd pa fs t w) as Hw.
  rewrite H in Hw. cbn in Hw. subst w'.
  split; [reflexivity |].
  split; [reflexivity |].
  split; [reflexivity |].
  split; [apply lookup_insert_eq |].
  split; [unfold files_params;
          rewrite lookup_insert_ne by discriminate;
          rewrite lookup_insert_eq; now destruct pa |].
  split; [unfold files_params;
          do 2 (rewrite lookup_insert_ne by discriminate);
          apply lookup_singleton_eq |].
  split; [intros k H1 H2 H3; unfold files_params;
          do 2 (rewrite lookup_insert_ne by congruence);
          apply lookup_singleton_ne; congruence |].
  intros arr Hr. revert H. unfold async_for. cbn -[yielded run_loop].
  unfold bind, self, ServerAwaiting._get, ServerAwaiting.dispatch, lift.
  cbn -[yielded run_loop].
  unfold files_request, files_params in Hr. cbn in Hr. rewrite Hr.
  cbn -[yielded run_loop]. intros H.
  destruct (run_loop_prefix (files hd pa fs t) fst mkFileModel _
              (fun x a w0 E => ltac:(
                 rewrite files_yielded in E;
                 destruct (getitem x "path"); [| discriminate];
                 injection E as <- <-; split; reflexivity))
              _ _ _ _ H) as [H1 H2].
  split; [exact H1 |].
  intros He. rewrite H1, (H2 He), firstn_all. reflexivity.
Qed.

(** *** The receiver is never written *)

Lemma keeps_ret {A} (a : A) : keeps_self (ret a).
Proof. intros w. reflexivity. Qed.

Lemma keeps_raise {A} (e : exn) : keeps_self (@raise A e).
Proof. intros w. reflexivity. Qed.

Lemma keeps_lift {A} (r : result A) : keeps_self (lift r).
Proof. intros w. reflexivity. Qed.

Lemma keeps_arg {A} (o : option A) : keeps_self (arg o).
Proof. destruct o; intros w; reflexivity. Qed.

Lemma keeps_read : keeps_self self.
Proof. intros w. reflexivity. Qed.

Lemma keeps_dispatch ctx r : keeps_self (ServerAwaiting.dispatch remote ctx r).
Proof. intros w. reflexivity. Qed.

Lemma keeps_bind {A B} (m : M A) (k : A -> M B) :
  keeps_self m -> (forall a, keeps_self (k a)) -> keeps_self (bind m k).
Proof.
  intros Hm Hk w. unfold bind. specialize (Hm w).
  destruct (m w) as [[a | e] w1]; cbn in *.
  - now rewrite Hk.
  - exact Hm.
Qed.

Lemma keeps_if {A} (b : bool) (m1 m2 : M A) :
  keeps_self m1 -> keeps_self m2 -> keeps_self (if b then m1 else m2).
Proof. now destruct b. Qed.

Ltac keeps_step :=
  first [ apply keeps_ret | apply keeps_raise | apply keeps_lift
        | apply keeps_arg | apply keeps_read | apply keeps_dispatch
        | apply keeps_if | apply keeps_bind; [| intros ?] ].

Ltac keeps :=
  unfold ServerAwaiting.delete, ServerAwaiting.get, ServerAwaiting.update,
    ServerAwaiting.console_send, ServerAwaiting.console_retrive,
    ServerAwaiting.sync, ServerAwaiting.duplicate, ServerAwaiting.ftp_reset,
    ServerAwaiting.stop, ServerAwaiting.start, ServerAwaiting.reset,
    ServerAwaiting.file, ServerAwaiting.backup, ServerAwaiting.metrics,
    ServerAwaiting._get, ServerAwaiting._post, ServerAwaiting._put,
    ServerAwaiting._delete;
  repeat keeps_step.

Lemma keeps_run_loop {A} (g : AsyncGenerator A) :
  (forall x, keeps_self (yielded g x)) ->
  forall rest w, this (snd (run_loop g rest w)) = this w.
Proof.
  intros Hg rest. induction rest as [| x rest IH]; intros w; cbn.
  - reflexivity.
  - specialize (Hg x w). destruct (yielded g x w) as [[a | e] w1]; cbn in *.
    + specialize (IH w1). destruct (run_loop g rest w1) as [[items e] w2].
      cbn in *. congruence.
    + exact Hg.
Qed.

Lemma keeps_async_for {A} (g : AsyncGenerator A) :
  keeps_self (prologue g) ->
  (forall x, keeps_self (yielded g x)) ->
  forall st w, this (snd (async_for g st w)) = this w.
Proof.
  intros Hp Hg st w. destruct st as [| rest |]; cbn -[run_loop].
  - assert (Hd : keeps_self (data <- prologue g;; lift (iterate data)))
      by (apply keeps_bind; [exact Hp | intros data; apply keeps_lift]).
    specialize (Hd w).
    destruct ((data <- prologue g;; lift (iterate data)) w)
      as [[l | e] w1]; cbn -[run_loop] in *.
    + rewrite keeps_run_loop by assumption. exact Hd.
    + exact Hd.
  - now apply keeps_run_loop.
  - reflexivity.
Qed.

Lemma keeps_anext {A} (g : AsyncGenerator A) :
  keeps_self (prologue g) ->
  (forall x, keeps_self (yielded g x)) ->
  forall st w, this (snd (anext g st w)) = this w.
Proof.
  assert (Hres : (forall x, keeps_self (yielded g x)) ->
                 forall rest w, this (snd (resume g rest w)) = this w).
  { intros Hg [| x rest] w; cbn; [reflexivity |].
    specialize (Hg x w). now destruct (yielded g x w) as [[a | e] w1]. }
  intros Hp Hg st w. destruct st as [| rest |]; cbn -[resume].
  - assert (Hd : keeps_self (data <- prologue g;; lift (iterate data)))
      by (apply keeps_bind; [exact Hp | intros data; apply keeps_lift]).
    specialize (Hd w).
    destruct ((data <- prologue g;; lift (iterate data)) w)
      as [[l | e] w1]; cbn -[resume] in *.
    + rewrite Hres by assumption. exact Hd.
    + exact Hd.
  - now apply Hres.
  - reflexivity.
Qed.

Lemma keeps_files hd pa fs t :
  keeps_self (prologue (files hd pa fs t))
  /\ forall x, keeps_self (yielded (files hd pa fs t) x).
Proof. split; [| intros x]; cbn; keeps. Qed.

Lemma keeps_backups t :
  keeps_self (prologue (backups t))
  /\ forall x, keeps_self (yielded (backups t) x).
Proof. split; [| intros x]; cbn; keeps. Qed.

Lemma keeps_run_method (m : method) (b : arguments) :
  keeps_self (run_method SERVER format remote m b).
Proof.
  destruct m; cbn -[async_for]; keeps.
  - rename a into hd, a0 into pa, a1 into fs, a2 into t. intros w.
    pose proof (keeps_async_for (files hd pa fs t)
                  (proj1 (keeps_files hd pa fs t))
                  (proj2 (keeps_files hd pa fs t)) Created w) as H.
    destruct (async_for (files hd pa fs t) Created w) as [[items e] w1].
    exact H.
  - rename a into t. intros w.
    pose proof (keeps_async_for (backups t)
                  (proj1 (keeps_backups t))
                  (proj2 (keeps_backups t)) Created w) as H.
    destruct (async_for (backups t) Created w) as [[items e] w1].
    exact H.
Qed.

(** C8: whatever method is called, with whatever keyword arguments and
    in whatever world, the receiver's [server_id] afterwards is the one
    it had before; the same holds for every single step of the two
    listing generators, from any state. *)
Theorem server_id_unchanged (m : method) (a : arguments) (w : World) :
  server_id (this (snd (invoke SERVER format remote m a w)))
    = server_id (this w)
  /\ (forall hd pa fs t st,
        server_id (this (snd (anext (files hd pa fs t) st w)))
          = server_id (this w))
  /\ (forall t st,
        server_id (this (snd (anext (backups t) st w)))
          = server_id (this w)).
Proof.
  split; [| split].
  - f_equal. unfold invoke.
    apply keeps_bind; [apply keeps_lift |].
    intros b. apply keeps_run_method.
  - intros hd pa fs t st. f_equal.
    apply keeps_anext; apply keeps_files.
  - intros t st. f_equal.
    apply keeps_anext; apply keeps_backups.
Qed.

(** *** Timeouts *)

(** A keyword the method does not declare stops the call before its
    body: nothing is logged. *)
Lemma undeclared_timeout (m : method) (a : arguments) (w : World) :
  accepts_timeout m = false ->
  is_Some (a_timeout a) ->
  invoke SERVER format remote m a w = (Raise TypeError, w).
Proof.
  intros Hm [t Ht]. unfold invoke, bind, lift, bind_arguments.
  assert (E : forallb (fun p => bool_decide (p ∈ parameters m)) (supplied a)
              = false).
  { unfold supplied. rewrite Ht. cbn.
    unfold accepts_timeout in Hm. now rewrite Hm. }
  now rewrite E.
Qed.

Lemma or_else_default {A} (o : option A) (d : A) :
  or_else o (Some d) = Some (default d o).
Proof. now destruct o. Qed.

Lemma bind_arguments_ok (m : method) (a b : arguments) :
  bind_arguments m a = Ok b -> b = complete a (defaults m).
Proof.
  unfold bind_arguments. destruct (_ && _); [| discriminate].
  now intros [= <-].
Qed.

Lemma backups_world t (w : World) :
  snd (async_for (backups t) Created w)
    = logged w (context (this w), backups_request SERVER format t (this w)).
Proof.
  unfold async_for. cbn -[yielded run_loop].
  unfold bind, self, ServerAwaiting._get, ServerAwaiting.dispatch, lift.
  cbn -[yielded run_loop].
  fold (backups_request SERVER format t (this w)).
  destruct (remote _ _ _) as [data |]; [| reflexivity].
  destruct (iterate data) as [l |]; [| reflexivity].
  apply run_loop_world. intros x w0. now rewrite backups_yielded.
Qed.

(** A timeout the method declares is the one its request carries, the
    default when the caller passes none. *)
Lemma declared_timeout_forwarded (m : method) (a b : arguments) (w : World) :
  m ∈ [m_delete; m_stop; m_start; m_reset; m_files; m_backups] ->
  bind_arguments m a = Ok b ->
  exists r,
    calls (snd (invoke SERVER format remote m a w))
      = calls w ++ [(context (this w), r)]
    /\ req_timeout r = or_else (a_timeout a) (a_timeout (defaults m)).
Proof.
  intros Hm Hb. unfold invoke, bind at 1, lift. rewrite Hb.
  apply bind_arguments_ok in Hb as ->.
  repeat (apply elem_of_cons in Hm as [-> | Hm]);
    [.. | now apply elem_of_nil in Hm];
    cbn -[async_for or_else]; rewrite !or_else_default;
    unfold bind, arg, ret; cbn -[async_for].
  1-4: unfold ServerAwaiting.delete, ServerAwaiting.stop, ServerAwaiting.start,
         ServerAwaiting.reset, bind, self, ServerAwaiting._delete,
         ServerAwaiting._post, ServerAwaiting.dispatch, ret;
       cbn; destruct (remote _ _ _); cbn; eexists; split; reflexivity.
  - pose proof (files_world (default false (a_hide_default a))
                  (default None (a_path a)) (default false (a_file_sizes a))
                  (default 30 (a_timeout a)) w) as Hw.
    destruct (async_for _ Created w) as [[items e] w1].
    cbn in Hw |- *. subst w1. eexists. split; reflexivity.
  - pose proof (backups_world (default 30 (a_timeout a)) w) as Hw.
    destruct (async_for _ Created w) as [[items e] w1].
    cbn in Hw |- *. subst w1. eexists. split; reflexivity.
Qed.

(** C4, as the code has it: of the network-issuing methods, [delete],
    [duplicate], [stop], [start] and [reset] declare a timeout with
    default 60, [files] and [backups] declare one with default 30, and
    [get], [update], [console_send], [console_retrive], [sync],
    [ftp_reset] and [metrics] declare none, so that passing them one is
    a [TypeError] raised before any call is made. *)
Theorem timeout_parameter_by_method (m : method) :
  network_issuing m = true ->
  (m ∈ [m_delete; m_duplicate; m_stop; m_start; m_reset]
   /\ accepts_timeout m = true /\ a_timeout (defaults m) = Some 60)
  \/ (m ∈ [m_files; m_backups]
      /\ accepts_timeout m = true /\ a_timeout (defaults m) = Some 30)
  \/ (m ∈ [m_get; m_update; m_console_send; m_console_retrive; m_sync;
           m_ftp_reset; m_metrics]
      /\ accepts_timeout m = false
      /\ forall a w, is_Some (a_timeout a) ->
           invoke SERVER format remote m a w = (Raise TypeError, w)).
Proof.
  intros Hn.
  destruct m; try discriminate Hn;
    first [ left; split; [set_solver | split; reflexivity]
          | right; left; split; [set_solver | split; reflexivity]
          | right; right; split; [set_solver |];
            split; [reflexivity |];
            intros a w Ha; now apply undeclared_timeout ].
Qed.
End Properties.

(** * The properties at the example service *)

(** C4 fails at [get]: it calls the dispatcher and declares no timeout. *)
Lemma get_declares_no_timeout :
  ~ (network_issuing m_get = true ->
     accepts_timeout m_get = true
     /\ exists d, a_timeout (defaults m_get) = Some d /\ 30 <= d <= 60).
Proof.
  intros H. destruct (H eq_refl) as [Hacc _]. discriminate Hacc.
Qed.

(** C3 fails on an array with an element that has no ["path"]: the
    patchy service answers the listing GET with three elements, and
    [files] yields one pair, for the element before the keyless one,
    then raises [KeyError]. *)
Lemma listing_count_fails_on_keyless_element :
  exists arr,
    patchy_remote example_context (calls example_world)
      (files_request example_routes example_format
         (files_params false None false) 30 (this example_world))
      = Ok (VList arr)
    /\ length arr = 3%nat
    /\ fst (async_for
              (ServerAwaiting.files example_routes example_format
                 patchy_remote false None false 30) Created example_world)
       = ([(mkFileModel example_file,
            mkAwaitingFile example_context (VStr "srv1") (VStr "a.cfg"))],
          Some (KeyError "path"))
    /\ length
         (fst (async_for
                 (ServerAwaiting.files example_routes example_format
                    patchy_remote false None false 30) Created
                 example_world)).1
       <> length arr.
Proof.
  exists [example_file; VDict {["size" := VInt 3]}; example_file].
  split; [reflexivity |]. split; [reflexivity |]. split; [reflexivity |].
  vm_compute. discriminate.
Qed.

(** Passing [get] a timeout is refused before any call is made. *)
Example get_with_timeout :
  invoke example_routes example_format example_remote m_get
    {| a_timeout := Some 45; a_settings := None; a_line := None;
       a_lines := None; a_sync := None; a_hide_default := None;
       a_path := None; a_file_sizes := None; a_pathway := None;
       a_backup_name := None |} example_world
  = (Raise TypeError, example_world).
Proof. reflexivity. Qed.

(** Called as declared, [get] sends a GET that carries no timeout. *)
Example get_sends_no_timeout :
  calls (snd (invoke example_routes example_format example_remote m_get
                no_arguments example_world))
    = [(example_context,
        mkRequest GET "game-servers/srv1" None None None None)].
Proof. reflexivity. Qed.

(** Zero lines are refused without a call. *)
Lemma console_retrive_rejects_witness :
  ex_console_retrive 0 example_world = (Raise InvalidConsoleLine, example_world)
  /\ calls (snd (ex_console_retrive 0 example_world)) = [].
Proof.
  apply (console_retrive_rejects example_routes example_format example_remote
           0 example_world).
  left. lia.
Defined.

(** A thousand lines are asked for in one GET. *)
Lemma console_retrive_one_get_witness :
  calls (snd (ex_console_retrive 1000 example_world))
    = [(example_context,
        mkRequest GET "game-servers/srv1/console"
          (Some {["max_lines" := VInt 1000]}) None None None)].
Proof.
  apply (console_retrive_one_get example_routes example_format example_remote
           1000 example_world).
  lia.
Defined.

(** The console of the example server holds one line. *)
Lemma console_retrive_returns_lines_witness :
  fst (ex_console_retrive 1000 example_world)
    = Ok (VList [VStr "Server started"]).
Proof.
  rewrite (console_retrive_returns_lines example_routes example_format
             example_remote 1000 example_world
             {["lines" := VList [VStr "Server started"]]}).
  - reflexivity.
  - lia.
  - reflexivity.
Defined.

(** The duplicate of ["srv1"] is ["srv2"], on the same context. *)
Lemma duplicate_returns_new_handle_witness :
  exists data,
    example_remote example_context []
      (duplicate_request example_routes example_format 60 (this example_world))
      = Ok data
    /\ mkServerModel (VDict {["id" := VStr "srv2"]}) = mkServerModel data
    /\ getitem data "id" = Ok (VStr "srv2")
    /\ example_context = example_context.
Proof.
  apply (duplicate_returns_new_handle example_routes example_format
           example_remote false 60 example_world
           (logged example_world
              (example_context,
               duplicate_request example_routes example_format 60
                 (this example_world)))
           (mkServerModel (VDict {["id" := VStr "srv2"]}))
           (mkServerBase example_context (VStr "srv2"))).
  reflexivity.
Defined.

(** The ["name"] option goes out as given; the ["server_id"] the settings
    carried is replaced by the receiver's. *)
Lemma update_one_put_witness :
  (<["server_id" := server_id (this example_world)]>
     (playload example_settings)) !! "name"
    = Some (VStr "lobby")
  /\ (<["server_id" := server_id (this example_world)]>
       (playload example_settings)) !! "server_id"
     = Some (VStr "srv1").
Proof.
  destruct (update_one_put example_routes example_format example_remote
              example_settings example_world) as (_ & Hid & Hother).
  split.
  - rewrite (Hother "name"); [reflexivity | discriminate].
  - exact Hid.
Defined.

(** The one file and the two backups of the example server. *)
Lemma listings_yield_pair_per_element_witness :
  fst (async_for (ex_files false None false 30) Created example_world)
    = ([(mkFileModel example_file,
         mkAwaitingFile example_context (VStr "srv1") (VStr "a.cfg"))], None)
  /\ fst (async_for (ex_backups 30) Created example_world)
     = ([(mkBackupModel (example_backup "monday"),
          mkAwaitingBackup example_context (VStr "srv1") (VStr "monday"));
         (mkBackupModel (example_backup "tuesday"),
          mkAwaitingBackup example_context (VStr "srv1") (VStr "tuesday"))],
        None).
Proof.
  split.
  - destruct (listings_yield_pair_per_element example_routes example_format
                example_remote false false None 30 example_world
                [example_file]) as [Hf _].
    destruct Hf as [Hf _].
    + reflexivity.
    + repeat constructor. exists (VStr "a.cfg"). reflexivity.
    + rewrite Hf. reflexivity.
  - destruct (listings_yield_pair_per_element example_routes example_format
                example_remote false false None 30 example_world
                [example_backup "monday"; example_backup "tuesday"])
      as [_ Hb].
    destruct Hb as [Hb _].
    + reflexivity.
    + repeat constructor; eexists; reflexivity.
    + rewrite Hb. reflexivity.
Defined.

(** The listing of the example server under ["cfg"]: one GET, with the
    three arguments in its query, and one model. *)
Lemma files_forwards_filters_witness :
  calls (snd (async_for (ex_files true (Some "cfg") false 30) Created
                example_world))
    = [(example_context,
        mkRequest GET "game-servers/srv1/files"
          (Some (files_params true (Some "cfg") false)) None (Some 30) None)]
  /\ files_params true (Some "cfg") false !! "hide_default_files"
     = Some (VBool true)
  /\ files_params true (Some "cfg") false !! "path" = Some (VStr "cfg")
  /\ files_params true (Some "cfg") false !! "with_filesizes"
     = Some (VBool false)
  /\ files_params true (Some "cfg") false !! "timeout" = None
  /\ (fst (async_for (ex_files true (Some "cfg") false 30) Created
             example_world)).1.*1
     = [mkFileModel example_file].
Proof.
  destruct (async_for (ex_files true (Some "cfg") false 30) Created
              example_world) as [[items e] w'] eqn:E.
  destruct (files_forwards_filters example_routes example_format
              example_remote true false (Some "cfg") 30 example_world w'
              items e E) as (Hc & _ & _ & Hhd & Hpa & Hfs & Hno & Harr).
  split; [exact Hc |].
  split; [exact Hhd |].
  split; [exact Hpa |].
  split; [exact Hfs |].
  split; [apply Hno; discriminate |].
  destruct (Harr [example_file] eq_refl) as [_ Hall].
  cbn. apply Hall.
  vm_compute in E. injection E as _ <- _. reflexivity.
Defined.

(** [delete] is one of the methods with a timeout of 60. *)
Lemma timeout_parameter_by_method_witness :
  accepts_timeout m_delete = true /\ a_timeout (defaults m_delete) = Some 60.
Proof.
  destruct (timeout_parameter_by_method example_routes example_format
              example_remote m_delete eq_refl)
    as [(_ & H) | [(Hin & _) | (Hin & _)]].
  - exact H.
  - split; reflexivity.
  - split; reflexivity.
Defined.

(** ** Further examples *)

(** The example of the specification: [files(hide_default=True)] against
    a server answering [[{"path": "a.cfg", "size": 10}]] yields one pair,
    the model of that file and a handle addressed to ["a.cfg"] under the
    server id. *)
Example files_of_example_server :
  fst (async_for (ex_files true None false 30) Created example_world)
    = ([(mkFileModel example_file,
         mkAwaitingFile example_context (VStr "srv1") (VStr "a.cfg"))], None).
Proof. reflexivity. Qed.

(** The same listing taken one [__anext__] at a time: the GET is sent by
    the first step, which yields the file; the second step stops. *)
Example files_step_by_step :
  let g := ex_files true None false 30 in
  let '(r1, st1, w1) := anext g Created example_world in
  let '(r2, st2, w2) := anext g st1 w1 in
  r1 = Yield (mkFileModel example_file,
              mkAwaitingFile example_context (VStr "srv1") (VStr "a.cfg"))
  /\ length (calls w1) = 1%nat
  /\ r2 = StopAsyncIteration /\ st2 = Closed /\ w2 = w1.
Proof. vm_compute. repeat split; reflexivity. Qed.

(** An element without ["path"] ends the listing with a [KeyError] after
    the pairs of the elements before it. *)
Example files_of_patchy_server :
  fst (async_for
         (ServerAwaiting.files example_routes example_format patchy_remote
            false None false 30) Created example_world)
    = ([(mkFileModel example_file,
         mkAwaitingFile example_context (VStr "srv1") (VStr "a.cfg"))],
       Some (KeyError "path")).
Proof. reflexivity. Qed.

(** A console answer that is not an object fails the subscript. *)
Example console_of_patchy_server :
  fst (ServerAwaiting.console_retrive example_routes example_format
         patchy_remote 10 example_world)
    = Raise TypeError.
Proof. reflexivity. Qed.

(** [delete()] sends its default timeout. *)
Example delete_by_default :
  calls (snd (invoke example_routes example_format example_remote m_delete
                no_arguments example_world))
    = [(example_context,
        mkRequest DELETE "game-servers/srv1" None None (Some 60) None)].
Proof. reflexivity. Qed.

(** [duplicate(sync=True)] on the example server: two POSTs, sync first. *)
Example duplicate_with_sync :
  (req_url <$> (calls (snd (ex_duplicate true 60 example_world))).*2)
    = ["game-servers/srv1/sync-files"; "game-servers/srv1/duplicate"].
Proof. reflexivity. Qed.

(** * Further properties of the handle *)

Section Handle.
Variable SERVER : Routes.
Variable format : string -> value -> string.
Variable remote : Context -> list call -> request -> result value.

Abbreviation invoke_ := (invoke SERVER format remote).
Abbreviation files_ := (ServerAwaiting.files SERVER format remote).
Abbreviation backups_ := (ServerAwaiting.backups SERVER format remote).
Abbreviation duplicate_ := (ServerAwaiting.duplicate SERVER format remote).
Abbreviation console_retrive_ :=
  (ServerAwaiting.console_retrive SERVER format remote).

Ltac unfold_methods :=
  unfold ServerAwaiting.delete, ServerAwaiting.get, ServerAwaiting.update,
    ServerAwaiting.console_send, ServerAwaiting.console_retrive,
    ServerAwaiting.sync, ServerAwaiting.duplicate, ServerAwaiting.ftp_reset,
    ServerAwaiting.stop, ServerAwaiting.start, ServerAwaiting.reset,
    ServerAwaiting.file, ServerAwaiting.backup, ServerAwaiting.metrics,
    ServerAwaiting._get, ServerAwaiting._post, ServerAwaiting._put,
    ServerAwaiting._delete, ServerAwaiting.dispatch,
    bind, self, ret, raise, lift, arg in *.

(** Case analysis on every option, answer and test a method body
    branches on. *)
Ltac branch :=
  repeat match goal with
    | |- context [match ?x with Some _ => _ | None => _ end] =>
        destruct x eqn:?; cbn -[async_for] in *
    | |- context [match ?x with Ok _ => _ | Raise _ => _ end] =>
        destruct x eqn:?; cbn -[async_for] in *
    | |- context [if ?x then _ else _] =>
        destruct x eqn:?; cbn -[async_for] in *
    end.

Lemma scoped_call (m : method) (w : World) (v : verb) (template : string)
    (ps ds : option dict) (t : option Z) (rj : option bool) :
  endpoint SERVER m = Some (v, template) ->
  scoped SERVER format m (this w)
    (context (this w),
     mkRequest v (format template (server_id (this w))) ps ds t rj).
Proof.
  intros H. left. split; [reflexivity |]. exists template. now split.
Qed.

Lemma in_present {A} (o : option A) (p q : pname) :
  q ∈ present o p -> q = p /\ is_Some o.
Proof.
  destruct o; cbn; intros H.
  - apply list_elem_of_singleton in H. eauto.
  - now apply elem_of_nil in H.
Qed.

(** A keyword is among those supplied only if its field is filled. *)
Lemma supplied_filled (b : arguments) (p : pname) :
  p ∈ supplied b ->
  match p with
  | p_timeout => is_Some (a_timeout b)
  | p_settings => is_Some (a_settings b)
  | p_line => is_Some (a_line b)
  | p_lines => is_Some (a_lines b)
  | p_sync => is_Some (a_sync b)
  | p_hide_default => is_Some (a_hide_default b)
  | p_path => is_Some (a_path b)
  | p_file_sizes => is_Some (a_file_sizes b)
  | p_pathway => is_Some (a_pathway b)
  | p_backup_name => is_Some (a_backup_name b)
  end.
Proof.
  unfold supplied. rewrite !elem_of_app. intros H.
  repeat (destruct H as [H | H]; [apply in_present in H as [-> H]; exact H |]).
  apply in_present in H as [-> H]. exact H.
Qed.

(** Binding succeeds only with every declared parameter filled. *)
Lemma bound_filled (m : method) (a b : arguments) (p : pname) :
  bind_arguments m a = Ok b -> p ∈ parameters m -> p ∈ supplied b.
Proof.
  unfold bind_arguments. destruct (_ && _) eqn:E; [| discriminate].
  intros [= <-] Hp. apply andb_true_iff in E as [_ E].
  rewrite forallb_forall in E. apply list_elem_of_In in Hp.
  specialize (E p Hp). now apply bool_decide_eq_true in E.
Qed.

Ltac filled Hb p :=
  let H := fresh "Hfilled" in
  match type of Hb with
  | bind_arguments ?m ?a = Ok ?b =>
      assert (H : p ∈ supplied b)
        by (apply (bound_filled m a b p Hb), list_elem_of_In; cbn; auto 10);
      apply supplied_filled in H as [? H]; rewrite H
  end.

(** The eight methods that return nothing ([delete], [update],
    [console_send], [sync], [ftp_reset], [stop], [start], [reset]) make
    exactly one call each, ignore the body it is answered with, and
    raise what the dispatcher raises. *)
Theorem actions_return_none_or_propagate (m : method) (a b : arguments)
    (w : World) :
  m ∈ [m_delete; m_update; m_console_send; m_sync; m_ftp_reset; m_stop;
       m_start; m_reset] ->
  bind_arguments m a = Ok b ->
  exists r,
    calls (snd (invoke_ m a w)) = calls w ++ [(context (this w), r)]
    /\ fst (invoke_ m a w)
       = match remote (context (this w)) (calls w) r with
         | Ok _ => Ok RNone
         | Raise e => Raise e
         end.
Proof.
  intros Hm Hb. unfold invoke, bind at 1, lift. rewrite Hb.
  repeat (apply elem_of_cons in Hm as [-> | Hm]);
    [.. | now apply elem_of_nil in Hm]; cbn.
  all: try (unfold bind at 1;
            first [ filled Hb p_timeout | filled Hb p_settings
                  | filled Hb p_line ]).
  all: unfold_methods; cbn;
    match goal with |- context [remote ?c ?l ?r] => exists r end;
    destruct (remote _ _ _); cbn; split; reflexivity.
Qed.

Lemma log_grew (l new : list call) : l ++ new = l -> new = [].
Proof.
  intros H. apply (f_equal length) in H. rewrite length_app in H.
  destruct new; [reflexivity | cbn in H; lia].
Qed.



(** A console answer that is not an object makes [console_retrive] raise
    [TypeError], the GET having been sent. *)
Theorem console_retrive_body_not_object (lines : Z) (w : World)
    (data : value) :
  1 <= lines <= 100000 ->
  remote (context (this w)) (calls w)
    (console_request SERVER format lines (this w)) = Ok data ->
  (forall d, data <> VDict d) ->
  fst (console_retrive_ lines w) = Raise TypeError.
Proof.
  intros H Hd Hobj. unfold ServerAwaiting.console_retrive.
  rewrite (in_range_test lines H). unfold_methods. cbn.
  unfold console_request in Hd. rewrite Hd. cbn.
  destruct data; try reflexivity. now destruct (Hobj d).
Qed.

(** When the sync call of [duplicate(sync=True)] raises, [duplicate]
    raises the same exception and the duplicate POST is never sent. *)
Theorem duplicate_sync_failure (timeout : Z) (w : World) (e : exn) :
  remote (context (this w)) (calls w) (sync_request SERVER format (this w))
    = Raise e ->
  duplicate_ true timeout w
    = (Raise e,
       logged w (context (this w), sync_request SERVER format (this w))).
Proof.
  intros H. unfold sync_request in H. unfold_methods. cbn.
  now rewrite H.
Qed.

(** When the duplicate POST is answered with a body that has no ["id"]
    to read, [duplicate] raises ([KeyError] for an object, [TypeError]
    otherwise) although the POST, the last call of the log, was sent. *)
Theorem duplicate_body_without_id (sync_ : bool) (timeout : Z) (w : World)
    (data : value) (e : exn) :
  (sync_ = true ->
   exists v, remote (context (this w)) (calls w)
               (sync_request SERVER format (this w)) = Ok v) ->
  remote (context (this w))
    (calls w ++ (if sync_
                 then [(context (this w), sync_request SERVER format (this w))]
                 else []))
    (duplicate_request SERVER format timeout (this w)) = Ok data ->
  getitem data "id" = Raise e ->
  fst (duplicate_ sync_ timeout w) = Raise e
  /\ last (calls (snd (duplicate_ sync_ timeout w)))
     = Some (context (this w),
             duplicate_request SERVER format timeout (this w))
  /\ (e = KeyError "id" \/ e = TypeError).
Proof.
  intros Hs Hd Hid.
  assert (He : e = KeyError "id" \/ e = TypeError).
  { destruct data; cbn in Hid; try (injection Hid as <-; now right).
    destruct (d !! "id"); [discriminate | injection Hid as <-; now left]. }
  unfold sync_request, duplicate_request in *. unfold_methods.
  destruct sync_; cbn in *.
  - destruct (Hs eq_refl) as [v Hv]. rewrite Hv. cbn.
    rewrite Hd. cbn. rewrite Hid. cbn.
    repeat split; [apply last_snoc | exact He].
  - rewrite app_nil_r in Hd. rewrite Hd. cbn. rewrite Hid. cbn.
    repeat split; [apply last_snoc | exact He].
Qed.

Lemma bind_arguments_error (m : method) (a : arguments) (e : exn) :
  bind_arguments m a = Raise e -> e = TypeError.
Proof.
  unfold bind_arguments. destruct (_ && _); [discriminate |].
  now intros [= <-].
Qed.

Lemma out_of_range_inv (lines : Z) :
  (lines <? 1) || (lines >? 100000) = true ->
  lines < 1 \/ lines > 100000.
Proof.
  intros H. apply orb_true_iff in H as [H | H]; [left | right].
  - now apply Z.ltb_lt.
  - apply Z.gtb_lt in H. lia.
Qed.

Ltac fill_all Hb :=
  try filled Hb p_timeout; try filled Hb p_settings; try filled Hb p_line;
  try filled Hb p_lines; try filled Hb p_sync; try filled Hb p_hide_default;
  try filled Hb p_path; try filled Hb p_file_sizes; try filled Hb p_pathway;
  try filled Hb p_backup_name.

(** A method call leaves the log as it was in exactly four cases: the
    keywords do not bind, the method is [file] or [backup], or it is
    [console_retrive] with a line count outside 1..100000. *)
Theorem log_unchanged_iff (m : method) (a : arguments) (w : World) :
  calls (snd (invoke_ m a w)) = calls w <->
  bind_arguments m a = Raise TypeError
  \/ m = m_file \/ m = m_backup
  \/ (m = m_console_retrive
      /\ exists n, or_else (a_lines a) (Some 1000) = Some n
                   /\ (n < 1 \/ n > 100000)).
Proof.
  unfold invoke, bind at 1, lift.
  destruct (bind_arguments m a) as [b | e] eqn:Hb; cbn -[async_for].
  2: { apply bind_arguments_error in Hb as ->. now split; [left |]. }
  split.
  - intros H. right. revert H.
    destruct m; cbn -[async_for]; fill_all Hb; auto.
    all: unfold_methods; cbn -[async_for]; branch; intros H;
      rewrite <- ?app_assoc in H;
      try (apply log_grew in H; discriminate H).
    + right. right. split; [reflexivity |].
      apply bind_arguments_ok in Hb. subst b. cbn in Hfilled.
      eexists. split; [exact Hfilled | now apply out_of_range_inv].
    + match type of H with
      | context [async_for (ServerAwaiting.files _ _ _ ?hd ?pa ?fs ?t)] =>
          pose proof (files_world SERVER format remote hd pa fs t w) as Hw
      end.
      destruct (async_for _ Created w) as [[items e] w1].
      cbn in Hw, H. subst w1. apply log_grew in H. discriminate H.
    + match type of H with
      | context [async_for (ServerAwaiting.backups _ _ _ ?t)] =>
          pose proof (backups_world SERVER format remote t w) as Hw
      end.
      destruct (async_for _ Created w) as [[items e] w1].
      cbn in Hw, H. subst w1. apply log_grew in H. discriminate H.
  - intros [H | [-> | [-> | [-> (n & Hn & Hr)]]]].
    + discriminate H.
    + cbn. fill_all Hb. reflexivity.
    + cbn. fill_all Hb. reflexivity.
    + cbn. filled Hb p_lines.
      apply bind_arguments_ok in Hb. subst b. cbn in Hfilled.
      rewrite Hn in Hfilled. injection Hfilled as <-.
      unfold bind at 1. cbn. unfold bind at 1.
      unfold ServerAwaiting.console_retrive.
      now rewrite (out_of_range_test n Hr).
Qed.

(** Every call a method makes goes through the receiver's context to
    the method's own endpoint (for [duplicate], the sync endpoint too),
    with the receiver's server id in the URL; no method makes more than
    one call, [duplicate] no more than two, [file] and [backup] none. *)
Theorem calls_scoped_to_receiver (m : method) (a : arguments) (w : World) :
  exists new,
    calls (snd (invoke_ m a w)) = calls w ++ new
    /\ (length new <= call_budget m)%nat
    /\ Forall (scoped SERVER format m (this w)) new.
Proof.
  unfold invoke, bind at 1, lift.
  destruct (bind_arguments m a) as [b | e]; cbn;
    [| exists []; rewrite app_nil_r;
       split; [reflexivity | split; [cbn; lia | constructor]]].
  destruct m; cbn -[async_for]; unfold_methods; cbn -[async_for]; branch.
  all: try (exists []; rewrite app_nil_r; cbn;
            split; [reflexivity | split; [lia | constructor]]).
  all: try (eexists [_]; split; [reflexivity |]; split; [cbn; lia |];
            constructor; [now apply scoped_call | constructor]).
  all: try (eexists [_; _]; split; [now rewrite <- app_assoc |];
            split; [cbn; lia |];
            constructor;
            [right; split; [reflexivity |]; split; [reflexivity |];
             eexists; split; reflexivity
            | constructor; [now apply scoped_call | constructor]]).
  - eexists [_]. split; [reflexivity |]. split; [cbn; lia |].
    constructor; [| constructor].
    right. split; [reflexivity |]. split; [reflexivity |].
    eexists. split; reflexivity.
  - pose proof (files_world SERVER format remote b0 o b1 z w) as Hw.
    destruct (async_for _ Created w) as [[items e] w1].
    cbn in Hw |- *. subst w1. eexists [_].
    split; [reflexivity |]. split; [cbn; lia |].
    constructor; [now apply scoped_call | constructor].
  - pose proof (backups_world SERVER format remote z w) as Hw.
    destruct (async_for _ Created w) as [[items e] w1].
    cbn in Hw |- *. subst w1. eexists [_].
    split; [reflexivity |]. split; [cbn; lia |].
    constructor; [now apply scoped_call | constructor].
Qed.

(** *** Listings, step by step *)

Lemma files_prologue hd pa fs t (w : World) :
  prologue (files_ hd pa fs t) w
    = (remote (context (this w)) (calls w)
         (files_request SERVER format (files_params hd pa fs) t (this w)),
       logged w (context (this w),
                 files_request SERVER format (files_params hd pa fs) t
                   (this w))).
Proof. reflexivity. Qed.

Lemma backups_prologue t (w : World) :
  prologue (backups_ t) w
    = (remote (context (this w)) (calls w)
         (backups_request SERVER format t (this w)),
       logged w (context (this w), backups_request SERVER format t (this w))).
Proof. reflexivity. Qed.

(** The loop stops at the first element its body fails on: the elements
    before it are yielded, the ones after it are never visited. *)
Lemma run_loop_stops {A} (g : AsyncGenerator A) (f : value -> A)
    (P : value -> Prop) (w : World) (pre post : list value) (x : value)
    (e : exn) :
  (forall y, P y -> yielded g y w = (Ok (f y), w)) ->
  Forall P pre ->
  yielded g x w = (Raise e, w) ->
  run_loop g (pre ++ x :: post) w = (f <$> pre, Some e, w).
Proof.
  intros Hg Hpre Hx. induction Hpre as [| y pre Hy _ IH]; cbn.
  - now rewrite Hx.
  - now rewrite (Hg y Hy), IH.
Qed.

(** What holds of every item the loop body can produce holds of every
    item the loop yields. *)
Lemma run_loop_Forall {A} (g : AsyncGenerator A) (Q : A -> Prop) (w : World) :
  (forall x a w', yielded g x w = (Ok a, w') -> Q a /\ w' = w) ->
  forall rest, Forall Q (run_loop g rest w).1.1.
Proof.
  intros Hg rest. induction rest as [| x rest IH]; cbn; [constructor |].
  destruct (yielded g x w) as [[a | e] w1] eqn:E; cbn; [| constructor].
  destruct (Hg _ _ _ E) as [Ha ->].
  destruct (run_loop g rest w) as [[items e] w2]. cbn in *.
  now constructor.
Qed.

Lemma resume_world {A} (g : AsyncGenerator A) :
  (forall x w, snd (yielded g x w) = w) ->
  forall rest w, snd (resume g rest w) = w.
Proof.
  intros Hg [| x rest] w; cbn; [reflexivity |].
  specialize (Hg x w). now destruct (yielded g x w) as [[a | e] w1].
Qed.

Lemma anext_world {A} (g : AsyncGenerator A) (st : gen_state) (w : World)
    (c : call) :
  (forall x w, snd (yielded g x w) = w) ->
  snd (prologue g w) = logged w c ->
  snd (anext g st w) = match st with Created => logged w c | _ => w end.
Proof.
  intros Hg Hp. destruct st as [| rest |]; cbn -[resume].
  - unfold bind, lift. destruct (prologue g w) as [[data | e] w1].
    + cbn in Hp. subst w1. destruct (iterate data); [| reflexivity].
      now apply resume_world.
    + exact Hp.
  - now apply resume_world.
  - reflexivity.
Qed.

(** A step that does not yield closes the generator. *)
Lemma anext_closes {A} (g : AsyncGenerator A) (st : gen_state) (w : World) :
  match (anext g st w).1.1 with
  | Yield _ => True
  | _ => (anext g st w).1.2 = Closed
  end.
Proof.
  assert (Hres : forall rest w0,
            match (resume g rest w0).1.1 with
            | Yield _ => True
            | _ => (resume g rest w0).1.2 = Closed
            end).
  { intros [| x rest] w0; cbn; [reflexivity |].
    now destruct (yielded g x w0) as [[a | e] w1]. }
  destruct st as [| rest |]; cbn -[resume].
  - destruct ((data <- prologue g;; lift (iterate data)) w) as [[l | e] w1];
      [apply Hres | reflexivity].
  - apply Hres.
  - reflexivity.
Qed.

(** A listing fetches once: the step that starts the generator logs the
    one GET, every later step logs nothing; and a step that does not
    yield leaves the generator closed. *)
Theorem listing_fetches_once (hd fs : bool) (pa : option string) (t : Z)
    (st : gen_state) (w : World) :
  calls (snd (anext (files_ hd pa fs t) st w))
    = calls w
        ++ match st with
           | Created =>
               [(context (this w),
                 files_request SERVER format (files_params hd pa fs) t
                   (this w))]
           | _ => []
           end
  /\ calls (snd (anext (backups_ t) st w))
     = calls w
         ++ match st with
            | Created =>
                [(context (this w),
                  backups_request SERVER format t (this w))]
            | _ => []
            end
  /\ match (anext (files_ hd pa fs t) st w).1.1 with
     | Yield _ => True
     | _ => (anext (files_ hd pa fs t) st w).1.2 = Closed
     end
  /\ match (anext (backups_ t) st w).1.1 with
     | Yield _ => True
     | _ => (anext (backups_ t) st w).1.2 = Closed
     end.
Proof.
  split; [| split; [| split; apply anext_closes]].
  - rewrite (anext_world (files_ hd pa fs t) st w
               (context (this w),
                files_request SERVER format (files_params hd pa fs) t
                  (this w))).
    + destruct st; cbn; now rewrite ?app_nil_r.
    + intros x w0. now rewrite files_yielded.
    + now rewrite files_prologue.
  - rewrite (anext_world (backups_ t) st w
               (context (this w), backups_request SERVER format t (this w))).
    + destruct st; cbn; now rewrite ?app_nil_r.
    + intros x w0. now rewrite backups_yielded.
    + now rewrite backups_prologue.
Qed.

(** A body that is not a list: nothing is yielded, and the loop ends
    normally only when there was nothing to iterate over. *)
Lemma non_list_body {A} (g : AsyncGenerator A) (w w1 : World)
    (data : value) :
  (forall s w0, yielded g (VStr s) w0 = (Raise TypeError, w0)) ->
  (forall l, data <> VList l) ->
  prologue g w = (Ok data, w1) ->
  (async_for g Created w).1.1 = []
  /\ (data = VDict ∅ \/ data = VStr EmptyString ->
      (async_for g Created w).1.2 = None)
  /\ (data <> VDict ∅ -> data <> VStr EmptyString ->
      (async_for g Created w).1.2 = Some TypeError).
Proof.
  intros Hg Hl Hp. unfold async_for, bind, lift. rewrite Hp.
  destruct data as [| b | z | f | s | l | d]; cbn -[run_loop];
    try (split; [reflexivity |]; split;
         [intros [H | H]; discriminate H | reflexivity]).
  - destruct s as [| c s]; cbn.
    + split; [reflexivity |]. split; [reflexivity |]. now intros _ H.
    + rewrite Hg. cbn. split; [reflexivity |].
      split; [intros [H | H]; discriminate H | reflexivity].
  - now destruct (Hl l).
  - destruct (map_to_list d) as [| [k v] kvs] eqn:E; cbn.
    + apply map_to_list_empty_iff in E as ->.
      split; [reflexivity |]. split; [reflexivity |]. now intros H.
    + rewrite Hg. cbn. split; [reflexivity |]. split; [| reflexivity].
      intros [[= ->] | H]; [| discriminate H].
      now rewrite map_to_list_empty in E.
Qed.

(** A listing body that is not a list yields nothing; the loop ends
    normally for the empty object and the empty string, and with
    [TypeError] for every other body. *)
Theorem listing_of_non_list (hd fs : bool) (pa : option string) (t : Z)
    (w : World) (data : value) :
  (forall l, data <> VList l) ->
  (remote (context (this w)) (calls w)
     (files_request SERVER format (files_params hd pa fs) t (this w))
     = Ok data ->
   (async_for (files_ hd pa fs t) Created w).1.1 = []
   /\ (data = VDict ∅ \/ data = VStr EmptyString ->
       (async_for (files_ hd pa fs t) Created w).1.2 = None)
   /\ (data <> VDict ∅ -> data <> VStr EmptyString ->
       (async_for (files_ hd pa fs t) Created w).1.2 = Some TypeError))
  /\ (remote (context (this w)) (calls w)
        (backups_request SERVER format t (this w)) = Ok data ->
      (async_for (backups_ t) Created w).1.1 = []
      /\ (data = VDict ∅ \/ data = VStr EmptyString ->
          (async_for (backups_ t) Created w).1.2 = None)
      /\ (data <> VDict ∅ -> data <> VStr EmptyString ->
          (async_for (backups_ t) Created w).1.2 = Some TypeError)).
Proof.
  intros Hl. split; intros Hr.
  - eapply non_list_body; [| exact Hl | rewrite files_prologue, Hr; reflexivity].
    intros s w0. now rewrite files_yielded.
  - eapply non_list_body;
      [| exact Hl | rewrite backups_prologue, Hr; reflexivity].
    intros s w0. now rewrite backups_yielded.
Qed.

(** A listing stops at the first element without its key: the pairs of
    the elements before it are yielded, then the subscript's exception
    ends the loop, whatever comes after. *)
Theorem listing_stops_at_first_keyless (hd fs : bool) (pa : option string)
    (t : Z) (w : World) (pre post : list value) (x : value) (e : exn) :
  (remote (context (this w)) (calls w)
     (files_request SERVER format (files_params hd pa fs) t (this w))
     = Ok (VList (pre ++ x :: post)) ->
   Forall (has_key "path") pre ->
   getitem x "path" = Raise e ->
   fst (async_for (files_ hd pa fs t) Created w)
     = (file_pair (this w) <$> pre, Some e))
  /\ (remote (context (this w)) (calls w)
        (backups_request SERVER format t (this w))
        = Ok (VList (pre ++ x :: post)) ->
      Forall (has_key "name") pre ->
      getitem x "name" = Raise e ->
      fst (async_for (backups_ t) Created w)
        = (backup_pair (this w) <$> pre, Some e)).
Proof.
  split; intros Hr Hpre Hx; unfold async_for, bind, lift.
  - rewrite files_prologue, Hr. cbn -[run_loop yielded].
    erewrite (run_loop_stops _ (file_pair (this w)) (has_key "path"));
      [reflexivity | | exact Hpre |].
    + intros y [v Hv]. rewrite files_yielded. unfold file_pair, key_of.
      cbn. now rewrite Hv.
    + rewrite files_yielded. now rewrite Hx.
  - rewrite backups_prologue, Hr. cbn -[run_loop yielded].
    erewrite (run_loop_stops _ (backup_pair (this w)) (has_key "name"));
      [reflexivity | | exact Hpre |].
    + intros y [v Hv]. rewrite backups_yielded. unfold backup_pair, key_of.
      cbn. now rewrite Hv.
    + rewrite backups_yielded. now rewrite Hx.
Qed.

(** When the listing GET raises, the first step of the generator raises
    the same exception and leaves it closed, the GET being logged. *)
Theorem listing_get_failure (hd fs : bool) (pa : option string) (t : Z)
    (w : World) (e : exn) :
  (remote (context (this w)) (calls w)
     (files_request SERVER format (files_params hd pa fs) t (this w))
     = Raise e ->
   anext (files_ hd pa fs t) Created w
     = (Throw e, Closed,
        logged w (context (this w),
                  files_request SERVER format (files_params hd pa fs) t
                    (this w))))
  /\ (remote (context (this w)) (calls w)
        (backups_request SERVER format t (this w)) = Raise e ->
      anext (backups_ t) Created w
        = (Throw e, Closed,
           logged w (context (this w),
                     backups_request SERVER format t (this w)))).
Proof.
  split; intros Hr; unfold anext, bind, lift.
  - now rewrite files_prologue, Hr.
  - now rewrite backups_prologue, Hr.
Qed.

(** A full run of [backups] logs exactly one call, a GET without query
    parameters that carries the timeout; the models it yields are an
    initial segment of the answered array, the whole array when the run
    ends without an exception. *)
Theorem backups_forwards_timeout_only (t : Z) (w w' : World)
    (items : list (BackupModel * AwaitingBackup)) (e : option exn) :
  async_for (backups_ t) Created w = (items, e, w') ->
  calls w'
    = calls w ++ [(context (this w), backups_request SERVER format t (this w))]
  /\ req_params (backups_request SERVER format t (this w)) = None
  /\ req_timeout (backups_request SERVER format t (this w)) = Some t
  /\ (forall arr,
        remote (context (this w)) (calls w)
          (backups_request SERVER format t (this w)) = Ok (VList arr) ->
        items.*1 = mkBackupModel <$> take (length items) arr
        /\ (e = None -> items.*1 = mkBackupModel <$> arr)).
Proof.
  intros H. pose proof (backups_world SERVER format remote t w) as Hw.
  rewrite H in Hw. cbn in Hw. subst w'.
  split; [reflexivity |]. split; [reflexivity |]. split; [reflexivity |].
  intros arr Hr. revert H. unfold async_for, bind, lift.
  rewrite backups_prologue, Hr. cbn -[yielded run_loop]. intros H.
  destruct (run_loop_prefix (backups_ t) fst mkBackupModel _
              (fun x a w0 E => ltac:(
                 rewrite backups_yielded in E;
                 destruct (getitem x "name"); [| discriminate];
                 injection E as <- <-; split; reflexivity))
              _ _ _ _ H) as [H1 H2].
  split; [exact H1 |].
  intros He. rewrite H1, (H2 He), firstn_all. reflexivity.
Qed.

(** Whatever the service answers, every handle a listing yields is
    addressed by the key of the model it is paired with, under the
    receiver's server id and on the receiver's context. *)
Theorem yielded_handles_addressed (hd fs : bool) (pa : option string)
    (t : Z) (w : World) :
  Forall (fun item : FileModel * AwaitingFile =>
            (exists x, item.1 = mkFileModel x
                       /\ getitem x "path" = Ok (file_path item.2))
            /\ file_context item.2 = context (this w)
            /\ file_server_id item.2 = server_id (this w))
    (async_for (files_ hd pa fs t) Created w).1.1
  /\ Forall (fun item : BackupModel * AwaitingBackup =>
               (exists x, item.1 = mkBackupModel x
                          /\ getitem x "name" = Ok (backup_name item.2))
               /\ backup_context item.2 = context (this w)
               /\ backup_server_id item.2 = server_id (this w))
       (async_for (backups_ t) Created w).1.1.
Proof.
  split; unfold async_for, bind, lift.
  - rewrite files_prologue.
    destruct (remote _ _ _) as [data |]; [| constructor].
    destruct (iterate data) as [l |]; [| constructor].
    apply run_loop_Forall. intros x a w0. rewrite files_yielded.
    destruct (getitem x "path") eqn:E; [| discriminate].
    intros [= <- <-]. cbn. repeat split; eauto.
  - rewrite backups_prologue.
    destruct (remote _ _ _) as [data |]; [| constructor].
    destruct (iterate data) as [l |]; [| constructor].
    apply run_loop_Forall. intros x a w0. rewrite backups_yielded.
    destruct (getitem x "name") eqn:E; [| discriminate].
    intros [= <- <-]. cbn. repeat split; eauto.
Qed.
End Handle.

(** * The package version of [setup.py] *)

Section Version.
Import Setup.
#[local] Open Scope string_scope.

Variable read : string -> outcome string.

Lemma strip_prefix_spec (p s r : string) :
  strip_prefix p s = Some r <-> s = (p ++ r)%string.
Proof.
  revert s. induction p as [| c p IH]; intros s; cbn.
  - split; [now intros [= ->] | now intros ->].
  - destruct s as [| d s]; [split; discriminate |].
    destruct (Ascii.eqb_spec c d) as [-> | Hne].
    + rewrite IH. split; [now intros -> | now intros [= ->]].
    + split; [discriminate | intros [= E _]; now destruct Hne].
Qed.

Lemma span_unquoted_spec (s : string) :
  s = ((span_unquoted s).1 ++ (span_unquoted s).2)%string
  /\ unquoted (span_unquoted s).1 = true
  /\ match (span_unquoted s).2 with
     | EmptyString => True
     | String q _ => is_quote q = true
     end.
Proof.
  induction s as [| c s (IH1 & IH2 & IH3)]; cbn; [auto |].
  destruct (is_quote c) eqn:E; cbn; [auto |].
  destruct (span_unquoted s) as [v rest]. cbn in *.
  rewrite E. cbn. split; [| split; assumption].
  change (String c s = String c (v ++ rest)). now f_equal.
Qed.

(** A run without quotes that a quote follows is the longest run. *)
Lemma span_unquoted_run (v post : string) (q : ascii) :
  unquoted v = true -> is_quote q = true ->
  span_unquoted (v ++ String q post) = (v, String q post).
Proof.
  intros Hv Hq. induction v as [| c v IH].
  - change (span_unquoted (String q post) = (EmptyString, String q post)).
    cbn. now rewrite Hq.
  - change (span_unquoted (String c (v ++ String q post))
            = (String c v, String q post)).
    cbn in *. apply andb_true_iff in Hv as [Hc Hv]. apply negb_true_iff in Hc.
    now rewrite Hc, (IH Hv).
Qed.

Lemma match_here_sound (s v : string) :
  match_here s = Some v ->
  exists q1 q2 post,
    s = (marker ++ String q1 (v ++ String q2 post))%string
    /\ is_quote q1 = true /\ is_quote q2 = true
    /\ v <> EmptyString /\ unquoted v = true.
Proof.
  unfold match_here. destruct (strip_prefix marker s) as [[| q1 body] |] eqn:E;
    try discriminate.
  apply strip_prefix_spec in E. destruct (is_quote q1) eqn:Hq1; [| discriminate].
  destruct (span_unquoted_spec body) as (H1 & H2 & H3).
  destruct (span_unquoted body) as [[| c v0] [| q2 post]]; try discriminate.
  intros [= <-]. cbn in *. exists q1, q2, post.
  rewrite E, H1. repeat split; try assumption. discriminate.
Qed.

Lemma search_sound (s v : string) :
  search s = Some v ->
  exists pre q1 q2 post,
    s = (pre ++ marker ++ String q1 (v ++ String q2 post))%string
    /\ is_quote q1 = true /\ is_quote q2 = true
    /\ v <> EmptyString /\ unquoted v = true.
Proof.
  induction s as [| c s IH]; cbn -[match_here].
  - destruct (match_here EmptyString) eqn:E; [| discriminate].
    intros [= <-]. apply match_here_sound in E as (q1 & q2 & post & H).
    now exists EmptyString, q1, q2, post.
  - destruct (match_here (String c s)) eqn:E.
    + intros [= <-]. apply match_here_sound in E as (q1 & q2 & post & H).
      now exists EmptyString, q1, q2, post.
    + intros H. destruct (IH H) as (pre & q1 & q2 & post & -> & H').
      now exists (String c pre), q1, q2, post.
Qed.

(** The marker is no proper suffix-and-prefix of itself: where it heads
    [s ++ marker ++ t], either [s] is empty or the marker heads [s]. *)
Lemma marker_heads (s t r : string) :
  strip_prefix marker (s ++ marker ++ t) = Some r ->
  s = EmptyString \/ exists b, s = (marker ++ b)%string.
Proof.
  intros H. apply strip_prefix_spec in H.
  destruct s as [| c s]; [now left |]. right.
  lazy beta iota delta [String.append marker] in H.
  injection H as -> H.
  repeat (destruct s as [| c s];
          lazy beta iota delta [String.append marker] in H;
          [discriminate H | injection H as -> H]).
  now exists s.
Qed.

Lemma search_needs_marker (s v : string) :
  search s = Some v -> occurs marker s = true.
Proof.
  induction s as [| c s IH]; cbn -[match_here marker].
  - unfold match_here. now destruct (strip_prefix marker EmptyString).
  - unfold match_here at 1.
    destruct (strip_prefix marker (String c s)) as [[| q body] |]; auto.
Qed.

(** Text that does not hold the marker is skipped by the search. *)
Lemma search_skips (pre t : string) :
  occurs marker pre = false ->
  search (pre ++ marker ++ t) = search (marker ++ t).
Proof.
  induction pre as [| c pre IH]; [reflexivity |].
  intros H. cbn -[marker] in H.
  destruct (strip_prefix marker (String c pre)) eqn:E; [discriminate |].
  change (search (String c (pre ++ marker ++ t)) = search (marker ++ t)).
  cbn -[match_here marker]. unfold match_here at 1.
  destruct (strip_prefix marker (String c (pre ++ marker ++ t))) eqn:E'.
  - apply (marker_heads (String c pre)) in E' as [E' | [b E']];
      [discriminate E' |].
    apply strip_prefix_spec in E'. congruence.
  - now apply IH.
Qed.

(** The version [get_version] returns is never empty, holds no quote,
    and stands in the file right after the marker and a quote, with a
    quote after it. *)
Theorem get_version_sound (package v : string) :
  get_version read package = Done v ->
  exists pre q1 q2 post,
    read (join package "__init__.py")
      = Done (pre ++ marker ++ String q1 (v ++ String q2 post))
    /\ is_quote q1 = true /\ is_quote q2 = true
    /\ v <> EmptyString /\ unquoted v = true.
Proof.
  unfold get_version.
  destruct (read (join package "__init__.py")) as [text | e]; [| discriminate].
  destruct (search text) as [v0 |] eqn:E; [| discriminate].
  intros [= <-]. apply search_sound in E as (pre & q1 & q2 & post & -> & H).
  now exists pre, q1, q2, post.
Qed.

(** The first assignment wins: when the text before it does not hold
    the marker, [get_version] returns the run of characters between the
    quotes, whichever of the two quotes opens and closes it and whatever
    follows. *)
Theorem get_version_finds_first (package pre v post : string) (q1 q2 : ascii) :
  read (join package "__init__.py")
    = Done (pre ++ marker ++ String q1 (v ++ String q2 post)) ->
  occurs marker pre = false ->
  is_quote q1 = true -> is_quote q2 = true ->
  v <> EmptyString -> unquoted v = true ->
  get_version read package = Done v.
Proof.
  intros Hr Hpre Hq1 Hq2 Hv Hu. unfold get_version. rewrite Hr.
  rewrite (search_skips pre _ Hpre).
  assert (E : match_here (marker ++ String q1 (v ++ String q2 post))
              = Some v).
  { unfold match_here.
    rewrite (proj2 (strip_prefix_spec marker _ _) eq_refl), Hq1.
    rewrite (span_unquoted_run v post q2 Hu Hq2).
    destruct v; [now destruct Hv | reflexivity]. }
  destruct (marker ++ String q1 (v ++ String q2 post))%string eqn:E0;
    cbn -[match_here]; now rewrite E.
Qed.

(** [get_version] fails with the error of [open] when the file cannot be
    read, and with [AttributeError] when the file does not hold the
    marker. *)
Theorem get_version_failures (package : string) :
  (forall e, read (join package "__init__.py") = Failed e ->
             get_version read package = Failed e)
  /\ (forall text, read (join package "__init__.py") = Done text ->
                   occurs marker text = false ->
                   get_version read package = Failed AttributeError).
Proof.
  unfold get_version. split.
  - intros e ->. reflexivity.
  - intros text -> H. destruct (search text) as [v |] eqn:E; [| reflexivity].
    apply search_needs_marker in E. congruence.
Qed.
End Version.

(** * The further properties at the example service *)

(** [stop()] on the example server: one POST, answered, nothing
    returned. *)
Lemma actions_return_none_or_propagate_witness :
  exists r,
    calls (snd (invoke example_routes example_format example_remote m_stop
                  no_arguments example_world))
      = [] ++ [(example_context, r)]
    /\ fst (invoke example_routes example_format example_remote m_stop
              no_arguments example_world)
       = match example_remote example_context [] r with
         | Ok _ => Ok RNone
         | Raise e => Raise e
         end.
Proof.
  apply (actions_return_none_or_propagate example_routes example_format
           example_remote m_stop no_arguments (defaults m_stop) example_world).
  - apply list_elem_of_In. simpl. auto 10.
  - reflexivity.
Defined.


(** The patchy service answers the console with a list. *)
Lemma console_retrive_body_not_object_witness :
  fst (ServerAwaiting.console_retrive example_routes example_format
         patchy_remote 10 example_world)
    = Raise TypeError.
Proof.
  apply (console_retrive_body_not_object example_routes example_format
           patchy_remote 10 example_world
           (VList [example_file; VDict {["size" := VInt 3]}; example_file])).
  - lia.
  - reflexivity.
  - intros d H. discriminate H.
Defined.

(** A sync that times out ends [duplicate] with the timeout. *)
Lemma duplicate_sync_failure_witness :
  ServerAwaiting.duplicate example_routes example_format
    (failing_remote TimeoutError) true 60 example_world
    = (Raise TimeoutError,
       logged example_world
         (example_context,
          sync_request example_routes example_format (this example_world))).
Proof.
  apply (duplicate_sync_failure example_routes example_format
           (failing_remote TimeoutError) 60 example_world TimeoutError).
  reflexivity.
Defined.

(** The patchy service answers the duplicate POST with a list. *)
Lemma duplicate_body_without_id_witness :
  fst (ServerAwaiting.duplicate example_routes example_format patchy_remote
         false 60 example_world)
    = Raise TypeError.
Proof.
  apply (duplicate_body_without_id example_routes example_format
           patchy_remote false 60 example_world
           (VList [example_file; VDict {["size" := VInt 3]}; example_file])
           TypeError).
  - intros H. discriminate H.
  - reflexivity.
  - reflexivity.
Defined.

(** [duplicate(sync=True)] of ["srv1"] returns the handle of ["srv2"]. *)
Lemma duplicate_succeeds_witness :
  fst (ex_duplicate true 60 example_world)
    = Ok (mkServerModel (VDict {["id" := VStr "srv2"]}),
          mkServerBase example_context (VStr "srv2")).
Proof.
  apply (duplicate_succeeds example_routes example_format example_remote
           true 60 example_world (VDict {["id" := VStr "srv2"]})
           (VStr "srv2")).
  - intros _. exists VNone. reflexivity.
  - reflexivity.
  - reflexivity.
Defined.

(** [console_retrive(lines=0)] logs nothing. *)
Lemma log_unchanged_iff_witness :
  calls (snd (invoke example_routes example_format example_remote
                m_console_retrive
                (mkArguments None None None (Some 0) None None None None None
                   None) example_world))
    = [].
Proof.
  apply (log_unchanged_iff example_routes example_format example_remote
           m_console_retrive
           (mkArguments None None None (Some 0) None None None None None None)
           example_world).
  right. right. right. split; [reflexivity |].
  exists 0. split; [reflexivity | left; lia].
Defined.

(** [files(timeout=5)] sends 5; the other arguments take their
    defaults. *)
Lemma declared_timeout_forwarded_witness :
  exists r,
    calls (snd (invoke example_routes example_format example_remote m_files
                  (mkArguments (Some 5) None None None None None None None
                     None None) example_world))
      = [] ++ [(example_context, r)]
    /\ req_timeout r = Some 5.
Proof.
  apply (declared_timeout_forwarded example_routes example_format
           example_remote m_files
           (mkArguments (Some 5) None None None None None None None None None)
           (mkArguments (Some 5) None None None None (Some false) (Some None)
              (Some false) None None)
           example_world).
  - apply list_elem_of_In. simpl. auto 10.
  - reflexivity.
Defined.

(** The patchy listing: the first file is yielded, the element without a
    path ends the run; read as backups, the first element already has no
    name. *)
Lemma listing_stops_at_first_keyless_witness :
  fst (async_for
         (ServerAwaiting.files example_routes example_format patchy_remote
            false None false 30) Created example_world)
    = (file_pair (this example_world) <$> [example_file],
       Some (KeyError "path"))
  /\ fst (async_for
           (ServerAwaiting.backups example_routes example_format patchy_remote
              30) Created example_world)
     = ([], Some (KeyError "name")).
Proof.
  split.
  - apply (listing_stops_at_first_keyless example_routes example_format
             patchy_remote false false None 30 example_world [example_file]
             [example_file] (VDict {["size" := VInt 3]}) (KeyError "path")).
    + reflexivity.
    + repeat constructor. exists (VStr "a.cfg"). reflexivity.
    + reflexivity.
  - apply (listing_stops_at_first_keyless example_routes example_format
             patchy_remote false false None 30 example_world []
             [VDict {["size" := VInt 3]}; example_file] example_file
             (KeyError "name")).
    + reflexivity.
    + constructor.
    + reflexivity.
Defined.

(** Asked for the files of a server it does not know, the example
    service answers the empty object: nothing to list, no error. *)
Lemma listing_of_non_list_witness :
  (async_for (ex_files false None false 30) Created other_world).1.1 = []
  /\ (async_for (ex_files false None false 30) Created other_world).1.2
     = None.
Proof.
  destruct (listing_of_non_list example_routes example_format example_remote
              false false None 30 other_world (VDict ∅)) as [Hf _].
  - intros l H. discriminate H.
  - destruct Hf as (H1 & H2 & _).
    + reflexivity.
    + split; [exact H1 | apply H2; now left].
Defined.

(** A listing against a service that times out. *)
Lemma listing_get_failure_witness :
  anext (ServerAwaiting.backups example_routes example_format
           (failing_remote TimeoutError) 30) Created example_world
    = (Throw TimeoutError, Closed,
       logged example_world
         (example_context,
          backups_request example_routes example_format 30
            (this example_world))).
Proof.
  apply (listing_get_failure example_routes example_format
           (failing_remote TimeoutError) false false None 30 example_world
           TimeoutError).
  reflexivity.
Defined.

(** The two backups of the example server, from one GET. *)
Lemma backups_forwards_timeout_only_witness :
  calls (snd (async_for (ex_backups 30) Created example_world))
    = [(example_context,
        backups_request example_routes example_format 30
          (this example_world))]
  /\ (fst (async_for (ex_backups 30) Created example_world)).1.*1
     = [mkBackupModel (example_backup "monday");
        mkBackupModel (example_backup "tuesday")].
Proof.
  destruct (async_for (ex_backups 30) Created example_world)
    as [[items e] w'] eqn:E.
  destruct (backups_forwards_timeout_only example_routes example_format
              example_remote 30 example_world w' items e E)
    as (Hc & _ & _ & Harr).
  split.
  - exact Hc.
  - destruct (Harr [example_backup "monday"; example_backup "tuesday"] eq_refl)
      as [_ Hall].
    cbn. apply Hall.
    vm_compute in E. injection E as _ <- _. reflexivity.
Defined.

(** The version of the example package. *)
Lemma get_version_sound_witness :
  exists pre q1 q2 post,
    Setup.example_read (Setup.join "aiodathost" "__init__.py")
      = Setup.Done
          (pre ++ Setup.marker ++ String q1 ("0.1.4" ++ String q2 post))%string
    /\ Setup.is_quote q1 = true /\ Setup.is_quote q2 = true
    /\ "0.1.4" <> EmptyString /\ Setup.unquoted "0.1.4" = true.
Proof.
  apply (get_version_sound Setup.example_read "aiodathost" "0.1.4").
  reflexivity.
Defined.

Lemma get_version_finds_first_witness :
  Setup.get_version Setup.example_read "aiodathost" = Setup.Done "0.1.4".
Proof.
  apply (get_version_finds_first Setup.example_read "aiodathost"
           "from .client import Awaiting  # 'client'
" "0.1.4" "
__author__ = 'WardPearce'
" Setup.apostrophe Setup.apostrophe).
  - reflexivity.
  - reflexivity.
  - reflexivity.
  - reflexivity.
  - discriminate.
  - reflexivity.
Defined.

(** A package that is not there. *)
Lemma get_version_failures_witness :
  Setup.get_version Setup.example_read "dathost" = Setup.Failed Setup.OSError.
Proof.
  apply (get_version_failures Setup.example_read "dathost").
  reflexivity.
Defined.
